(** * Data ingestion pipeline ([src/data_ingestion.py])

    A shallow embedding of the ingestion script: the four stages
    ([load_params], [load_data], [preprocess_data], [save_data]), the
    driver [main], and the library calls they make (pandas [drop],
    [rename], [iloc] and [to_csv]; scikit-learn's [train_test_split]).

    Stages run in a state-and-exception monad over a [World] holding the
    log, the file system and numpy's global generator.  Whatever the
    outside decides (what a URL or a path holds, whether a write is
    allowed) is read from an [Env] of oracles. *)

From Stdlib Require Import ZArith Lia.
From Stdlib Require SpecFloat.
From stdpp Require Import base option list strings gmap.

Local Open Scope string_scope.

(** ** Exceptions *)

(** The exceptions the script can meet.  [KeyboardInterrupt] derives from
    [BaseException] only; every other constructor is a subclass of
    [Exception], which is what the script's handlers name. *)
Inductive exn : Type :=
  | FileNotFoundError (filename : string)
  | OSError (strerror : string)
  | YAMLError (problem : string)
  | ParserError (problem : string)
  | URLError (reason : string)
  | KeyError (missing : list string)
  | ValueError (message : string)
  | KeyboardInterrupt.

(** [isinstance(e, Exception)] *)
Definition isinstance_Exception (e : exn) : bool :=
  match e with
  | KeyboardInterrupt => false
  | _ => true
  end.

Inductive result (A : Type) : Type :=
  | Return (a : A)
  | Raise (e : exn).
Arguments Return {A} a.
Arguments Raise {A} e.

(** ** Tabular data *)

Inductive cell : Type :=
  | Str (s : string)
  | Num (z : Z)
  | NaN.

(** A pandas frame, column-major: the row labels and, per column, its
    label and its values.  Labels may repeat, as in pandas. *)
Record DataFrame : Type := mkDataFrame {
  index : list nat;
  columns : list (string * list cell)
}.

Definition column_names (df : DataFrame) : list string := (columns df).*1.

(** [len(df)] *)
Definition len (df : DataFrame) : nat := length (index df).

(** Every column is as long as the index. *)
Definition well_formed (df : DataFrame) : Prop :=
  Forall (λ c, length c.2 = len df) (columns df).

(** The row at position [i]: its label and its cells, left to right. *)
Definition row_at (df : DataFrame) (i : nat) : nat * list cell :=
  (nth i (index df) 0, map (λ c, nth i c.2 NaN) (columns df)).

Definition rows (df : DataFrame) : list (nat * list cell) :=
  map (row_at df) (seq 0 (len df)).

(** The labels the [KeyError] of a failed [drop] names: on unique column
    labels ([Index.drop]) the ones that are no column, in the order asked;
    on repeated column labels (the non-unique branch of [_drop_axis]) the
    whole list asked for. *)
Definition not_found (labels : list string) (df : DataFrame) : list string :=
  if decide (NoDup (column_names df))
  then filter (λ l, l ∉ column_names df) labels
  else labels.

(** [df.drop(columns=labels)] with the default [errors="raise"]: a label
    that names no column raises [KeyError]; otherwise every column
    carrying one of the labels goes. *)
Definition drop_columns (labels : list string) (df : DataFrame) : result DataFrame :=
  match filter (λ l, l ∉ column_names df) labels with
  | [] => Return {| index := index df;
                    columns := filter (λ c, c.1 ∉ labels) (columns df) |}
  | _ => Raise (KeyError (not_found labels df))
  end.

(** One label through a [rename] mapper: labels outside the mapper stay. *)
Definition rename_label (mapper : gmap string string) (c : string) : string :=
  default c (mapper !! c).

(** [df.rename(columns=mapper)] with the default [errors="ignore"]: a key of
    the mapper that names no column is skipped silently. *)
Definition rename_columns (mapper : gmap string string) (df : DataFrame) : DataFrame :=
  {| index := index df;
     columns := map (λ c, (rename_label mapper c.1, c.2)) (columns df) |}.

(** [df.iloc[positions]] *)
Definition iloc (positions : list nat) (df : DataFrame) : DataFrame :=
  {| index := map (λ i, nth i (index df) 0) positions;
     columns := map (λ c, (c.1, map (λ i, nth i c.2 NaN) positions)) (columns df) |}.

(** What [to_csv(path, index=False)] stores: the header and the rows,
    without the row labels. *)
Record CSV : Type := mkCSV {
  header : list string;
  records : list (list cell)
}.

Definition to_csv_text (df : DataFrame) : CSV :=
  {| header := column_names df; records := (rows df).*2 |}.

(** What [yaml.safe_load] returns for a document that is a mapping: a
    [dict] from keys to values, the values kept as text. *)
Abbreviation dict := (gmap string string).

(** ** Doubles

    [test_size * n_samples] is a product of IEEE-754 binary64 numbers.  Only
    non-negative finite values occur, so a double is kept as an integer
    significand and a binary exponent, and an operation rounds its exact
    result to 53 significant bits, ties to even.  Exponents are unbounded:
    a fraction times a row count stays far from overflow and underflow. *)
Module Float64.

Local Open Scope Z_scope.

Record t : Type := mk { mant : Z; expo : Z }.

Definition prec : Z := 53.

(** Bits of [m] beyond the 53 a significand holds. *)
Definition excess (m : Z) : Z := Z.log2 m + 1 - prec.

(** [m / 2^d] rounded to the nearest integer, ties to even. *)
Definition round_shift (m d : Z) : Z :=
  let q := m / 2 ^ d in
  let r := m mod 2 ^ d in
  let half := 2 ^ (d - 1) in
  if r <? half then q
  else if half <? r then q + 1
  else if Z.even q then q else q + 1.

(** The double nearest to [m * 2^e], for [0 <= m]. *)
Definition round (m e : Z) : t :=
  let d := excess m in
  if d <=? 0 then mk m e
  else
    let q := round_shift m d in
    if q =? 2 ^ prec then mk (2 ^ (prec - 1)) (e + d + 1) else mk q (e + d).

(** [float(n)] for a Python [int] *)
Definition of_int (n : Z) : t := round n 0.

(** [x * y] *)
Definition mul (x y : t) : t := round (mant x * mant y) (expo x + expo y).

(** [math.ceil(x)] *)
Definition ceil (x : t) : Z :=
  if 0 <=? expo x then mant x * 2 ^ expo x
  else - ((- mant x) / 2 ^ (- expo x)).

(** [x <= 0] *)
Definition le_0 (x : t) : bool := mant x <=? 0.

(** [x >= 1] *)
Definition ge_1 (x : t) : bool :=
  if 0 <=? expo x then 1 <=? mant x else 2 ^ (- expo x) <=? mant x.

(** The value of [x] counted in units of [2^e], for [e <= expo x]. *)
Definition units (x : t) (e : Z) : Z := mant x * 2 ^ (expo x - e).

End Float64.

(** The literal [0.21]: the double [0x1.ae147ae147ae1p-3]. *)
Definition test_size_0_21 : Float64.t :=
  Float64.mk 7566047373982433 (-55).

(** The same product through the Standard Library's IEEE-754
    multiplication at binary64 ([SFmul 53 1024]), to compare with. *)
Definition agrees_with_SFmul (n : Z) : bool :=
  match SpecFloat.SFmul 53 1024
          (SpecFloat.S754_finite false 7566047373982433 (-55))
          (SpecFloat.binary_normalize 53 1024 n 0 false) with
  | SpecFloat.S754_finite false m e =>
      let x := Float64.mul test_size_0_21 (Float64.of_int n) in
      (Z.pos m =? Float64.mant x)%Z && (e =? Float64.expo x)%Z
  | _ => false
  end.

(** ** numpy's generator

    [RandomState(seed)] and [permutation(n)] are taken as an interface: a
    state seeded from an integer, and a shuffle of [0 .. n-1] that
    advances the state.  The one law is that [permutation] permutes. *)
Class NumpyRandom : Type := {
  rng_state : Type;
  RandomState : Z → rng_state;
  permutation : rng_state → nat → list nat * rng_state;
  permutation_perm : ∀ g n, (permutation g n).1 ≡ₚ seq 0 n
}.

(** ** The world and the monad *)

Inductive level : Type := DEBUG | ERROR.

Inductive log_arg : Type :=
  | ArgStr (s : string)
  | ArgExn (e : exn).

(** A record as [logger.debug(msg, *args)] hands it to both handlers. *)
Record LogRecord : Type := mkLogRecord {
  levelname : level;
  msg : string;
  args : list log_arg
}.

(** How a write ends: done; refused before anything is stored (the path
    cannot be opened); or interrupted after the file was opened, leaving
    part of the text. *)
Inductive write_outcome : Type :=
  | Written
  | Refused (e : exn)
  | Interrupted (e : exn) (partial : CSV).

Section Pipeline.
Context `{NumpyRandom}.

Record World : Type := mkWorld {
  log : list LogRecord;
  dirs : gset string;
  files : gmap string CSV;
  np_random : rng_state
}.

(** What the outside answers: the document behind a path, the table
    behind a URL, how [os.makedirs] of a path ends ([None]: it returns;
    otherwise the exception it raises, and how many of the path's missing
    ancestors it had made by then), and how the write of a file ends. *)
Record Env : Type := mkEnv {
  yaml_document : string → exn + dict;
  csv_resource : string → exn + DataFrame;
  makedirs_error : string → option exn;
  makedirs_progress : string → nat;
  to_csv_outcome : string → write_outcome
}.

Definition M (A : Type) : Type := World → result A * World.

#[export] Instance M_ret : MRet M := λ A a w, (Return a, w).

#[export] Instance M_bind : MBind M := λ A B k m w,
  match m w with
  | (Return a, w') => k a w'
  | (Raise e, w') => (Raise e, w')
  end.

Definition raise {A} (e : exn) : M A := λ w, (Raise e, w).

Definition of_result {A} (r : result A) : M A := λ w, (r, w).

Definition of_sum {A} (r : exn + A) : M A :=
  match r with
  | inl e => raise e
  | inr a => mret a
  end.

(** *** Logging: [logger.debug], [logger.error]

    Both handlers sit at level [DEBUG], so every record reaches the console
    and [logs/data_ingestion.log]; [log] is that common sequence. *)
Definition emit (l : level) (msg : string) (args : list log_arg) (w : World) : World :=
  {| log := log w ++ [mkLogRecord l msg args];
     dirs := dirs w; files := files w; np_random := np_random w |}.

Definition logger_debug (msg : string) (args : list log_arg) : M unit :=
  λ w, (Return (), emit DEBUG msg args w).

Definition logger_error (msg : string) (args : list log_arg) : M unit :=
  λ w, (Return (), emit ERROR msg args w).

(** The handler every stage ends with:
    [try: body / except Exception as e: logger.error(msg, e); raise].
    An exception outside [Exception] is not caught. *)
Definition try_except_log {A} (body : M A) (msg : string) : M A :=
  λ w, match body w with
       | (Return a, w') => (Return a, w')
       | (Raise e, w') =>
           if isinstance_Exception e
           then (logger_error msg [ArgExn e];; raise e) w'
           else (Raise e, w')
       end.

(** *** Calls that reach outside *)

Variable env : Env.

(** [with open(path, "r") as file: yaml.safe_load(file)] *)
Definition open_safe_load (path : string) : M dict :=
  of_sum (yaml_document env path).

(** [pd.read_csv(url)] *)
Definition read_csv (url : string) : M DataFrame :=
  of_sum (csv_resource env url).

(** [os.path.join(a, b)] *)
Definition os_path_join (a b : string) : string := a +:+ "/" +:+ b.

(** The proper ancestors of a path, outermost first: what stands before
    each [/] of it. *)
Fixpoint ancestors_from (seen rest : string) : list string :=
  match rest with
  | EmptyString => []
  | String c rest' =>
      if String.eqb (String c "") "/"
      then (if String.eqb seen "" then [] else [seen]) ++
           ancestors_from (seen +:+ "/") rest'
      else ancestors_from (seen +:+ String c "") rest'
  end.

Definition ancestors (path : string) : list string := ancestors_from "" path.

(** The world once [path] is a directory: [os.makedirs] makes the missing
    ancestors on the way, leaf last. *)
Definition mkdir (path : string) (w : World) : World :=
  {| log := log w;
     dirs := {[path]} ∪ list_to_set (ancestors path) ∪ dirs w;
     files := files w; np_random := np_random w |}.

(** The world a failed [os.makedirs(path)] leaves: the ancestors it had made
    before it raised stay. *)
Definition partly_made (path : string) (w : World) : World :=
  {| log := log w;
     dirs := list_to_set (take (makedirs_progress env path) (ancestors path))
             ∪ dirs w;
     files := files w; np_random := np_random w |}.

(** The world once [path] holds [content], replacing what it held. *)
Definition store (path : string) (content : CSV) (w : World) : World :=
  {| log := log w; dirs := dirs w;
     files := <[path := content]> (files w); np_random := np_random w |}.

(** [os.makedirs(path, exist_ok=True)] *)
Definition os_makedirs (path : string) : M unit :=
  λ w, match makedirs_error env path with
       | Some e => (Raise e, partly_made path w)
       | None => (Return (), mkdir path w)
       end.

(** [df.to_csv(path, index=False)] *)
Definition to_csv (df : DataFrame) (path : string) : M unit :=
  λ w, match to_csv_outcome env path with
       | Written => (Return (), store path (to_csv_text df) w)
       | Refused e => (Raise e, w)
       | Interrupted e partial => (Raise e, store path partial w)
       end.

(** *** scikit-learn's [train_test_split] *)

(** [_validate_shuffle_split(n_samples, test_size, train_size=None)] for a
    float [test_size]: the sizes of the two parts.  The messages of its
    [ValueError]s are shortened. *)
Definition validate_shuffle_split (n_samples : nat) (test_size : Float64.t)
    : result (Z * Z) :=
  if Float64.le_0 test_size || Float64.ge_1 test_size
  then Raise (ValueError "test_size should be a float in the (0, 1) range")
  else
    let n_test :=
      Float64.ceil (Float64.mul test_size (Float64.of_int (Z.of_nat n_samples))) in
    let n_train := (Z.of_nat n_samples - n_test)%Z in
    if (Z.of_nat n_samples <? n_train + n_test)%Z
    then Raise (ValueError "The sum of train_size and test_size should be smaller than the number of samples")
    else if (n_train =? 0)%Z
    then Raise (ValueError "the resulting train set will be empty")
    else Return (n_train, n_test).

(** [check_random_state(random_state).permutation(n)]: an integer seeds a
    generator of its own; [None] draws from numpy's global one. *)
Definition rng_permutation (random_state : option Z) (n : nat) : M (list nat) :=
  λ w, match random_state with
       | Some seed => (Return (permutation (RandomState seed) n).1, w)
       | None =>
           let pg := permutation (np_random w) n in
           (Return pg.1,
            {| log := log w; dirs := dirs w; files := files w; np_random := pg.2 |})
       end.

(** [train_test_split(df, test_size=test_size, random_state=random_state)]:
    the first [n_test] shuffled positions are the test rows, the next
    [n_train] the train rows. *)
Definition train_test_split (df : DataFrame) (test_size : Float64.t)
    (random_state : option Z) : M (DataFrame * DataFrame) :=
  sizes ← of_result (validate_shuffle_split (len df) test_size);
  indices ← rng_permutation random_state (len df);
  let ind_test := take (Z.to_nat sizes.2) indices in
  let ind_train := take (Z.to_nat sizes.1) (drop (Z.to_nat sizes.2) indices) in
  mret (iloc ind_train df, iloc ind_test df).

(** *** The stages *)

Definition LOG_DIR : string := "logs".

Definition load_params (params_path : string) : M dict :=
  try_except_log
    (params ← open_safe_load params_path;
     logger_debug "Parameters loaded from %s" [ArgStr params_path];;
     mret params)
    "Error loading parameters: %s".

Definition load_data (data_url : string) : M DataFrame :=
  try_except_log
    (df ← read_csv data_url;
     logger_debug "Data loaded from %s" [ArgStr data_url];;
     mret df)
    "Error loading data: %s".

Definition preprocess_data (df : DataFrame) : M DataFrame :=
  try_except_log
    (df ← of_result (drop_columns ["Unnamed: 2"; "Unnamed: 3"; "Unnamed: 4"] df);
     let df := rename_columns {[ "v1" := "target"; "v2" := "text" ]} df in
     logger_debug "Data preprocessing completed" [];;
     mret df)
    "Error during preprocessing: %s".

Definition save_data (train_df test_df : DataFrame) : M unit :=
  try_except_log
    (let raw_data_path := os_path_join "data" "raw" in
     os_makedirs raw_data_path;;
     to_csv train_df (os_path_join raw_data_path "train.csv");;
     to_csv test_df (os_path_join raw_data_path "test.csv");;
     logger_debug "Train and test data saved to %s" [ArgStr raw_data_path])
    "Error saving data: %s".

Definition source_url : string :=
  "https://raw.githubusercontent.com/" +:+ "vikashishere/Datasets/main/spam.csv".

Definition main : M unit :=
  try_except_log
    (let test_size := test_size_0_21 in
     let random_state := 42%Z in
     df ← load_data source_url;
     df ← preprocess_data df;
     split ← train_test_split df test_size (Some random_state);
     save_data split.1 split.2;;
     logger_debug "Data ingestion pipeline completed successfully" [])
    "Data ingestion failed: %s".

(** The script run as [__main__]: the logging set-up at import, then
    [main()]. *)
Definition script : M unit :=
  os_makedirs LOG_DIR;; main.

(** The status the interpreter exits with: 0 after a normal return, 130
    after an uncaught [KeyboardInterrupt], 1 after any other uncaught
    exception. *)
Definition exit_status {A} (r : result A) : Z :=
  match r with
  | Return _ => 0
  | Raise KeyboardInterrupt => 130
  | Raise _ => 1
  end.

End Pipeline.

(** ** Values the statements refer to *)

(** The three columns [preprocess_data] drops. *)
Definition placeholders : list string :=
  ["Unnamed: 2"; "Unnamed: 3"; "Unnamed: 4"].

(** The mapper [preprocess_data] renames with. *)
Definition canonical_names : gmap string string :=
  {[ "v1" := "target"; "v2" := "text" ]}.

(** A frame without its placeholder columns. *)
Definition without_placeholders (df : DataFrame) : list (string * list cell) :=
  filter (λ c, c.1 ∉ placeholders) (columns df).

(** [round(num / den)] on the exact quotient, ties to even as Python's
    [round]. *)
Definition round_half_even (num den : Z) : Z :=
  let q := (num / den)%Z in
  let r := (num mod den)%Z in
  if (2 * r <? den)%Z then q
  else if (den <? 2 * r)%Z then (q + 1)%Z
  else if Z.even q then q else (q + 1)%Z.

(** The ceiling of [num / den]. *)
Definition ceil_div (num den : Z) : Z := (- ((- num) / den))%Z.

(** [r] is an integer nearest to [num / den], whatever the tie rule. *)
Definition nearest (r num den : Z) : Prop :=
  (Z.abs (den * r - num) * 2 ≤ den)%Z.

(** ** Notions the statements use *)

(** [env] with other configuration documents. *)
Definition with_yaml_document (docs : string → exn + dict) (env : Env) : Env :=
  {| yaml_document := docs;
     csv_resource := csv_resource env;
     makedirs_error := makedirs_error env;
     makedirs_progress := makedirs_progress env;
     to_csv_outcome := to_csv_outcome env |}.

(** The exception a write ends with, if any. *)
Definition write_error (o : write_outcome) : option exn :=
  match o with
  | Written => None
  | Refused e => Some e
  | Interrupted e _ => Some e
  end.

(** What [preprocess_data] returns once the three placeholders are there. *)
Definition preprocessed (df : DataFrame) : DataFrame :=
  {| index := index df;
     columns := map (λ c, (rename_label canonical_names c.1, c.2))
                    (without_placeholders df) |}.

(** A stage before [save_data] raises [e]: the load, the preprocessing of
    what was loaded, or the split of what was preprocessed. *)
Inductive fails_before_save (env : Env) (e : exn) : Prop :=
  | load_fails :
      csv_resource env source_url = inl e →
      fails_before_save env e
  | preprocess_fails df :
      csv_resource env source_url = inr df →
      drop_columns placeholders df = Raise e →
      fails_before_save env e
  | split_fails df :
      csv_resource env source_url = inr df →
      placeholders ⊆ column_names df →
      validate_shuffle_split (len (preprocessed df)) test_size_0_21 = Raise e →
      fails_before_save env e.

Section Outcomes.
Context `{!NumpyRandom}.

(** The world a handler leaves: the record is written only for an
    [Exception]. *)
Definition handled (msg : string) (e : exn) (w : World) : World :=
  if isinstance_Exception e then emit ERROR msg [ArgExn e] w else w.

(** The world a failed write of [path] leaves. *)
Definition after_failed_write (path : string) (o : write_outcome) (w : World)
    : World :=
  match o with
  | Interrupted _ partial => store path partial w
  | _ => w
  end.

(** The shuffled positions [train_test_split] cuts, and the world it
    leaves: a seeded call has a generator of its own. *)
Definition shuffled (random_state : option Z) (n : nat) (w : World) : list nat :=
  match random_state with
  | Some seed => (permutation (RandomState seed) n).1
  | None => (permutation (np_random w) n).1
  end.

Definition after_shuffle (random_state : option Z) (n : nat) (w : World) : World :=
  match random_state with
  | Some seed => w
  | None => {| log := log w; dirs := dirs w; files := files w;
               np_random := (permutation (np_random w) n).2 |}
  end.

(** The two frames [main] hands to [save_data], given the loaded frame and
    the sizes the split settled on: train first. *)
Definition main_parts (df : DataFrame) (n_train n_test : Z)
    : DataFrame * DataFrame :=
  let indices := (permutation (RandomState 42) (len (preprocessed df))).1 in
  (iloc (take (Z.to_nat n_train) (drop (Z.to_nat n_test) indices)) (preprocessed df),
   iloc (take (Z.to_nat n_test) indices) (preprocessed df)).

(** How [main] ends once [save_data] has run. *)
Definition main_after_save (r : result unit * World) : result unit * World :=
  match r with
  | (Return _, w) =>
      (Return (), emit DEBUG "Data ingestion pipeline completed successfully" [] w)
  | (Raise e, w) => (Raise e, handled "Data ingestion failed: %s" e w)
  end.

End Outcomes.

(** *** Sample inputs *)

(** The shape of the spam table: [n] rows under [v1], [v2] and the three
    placeholder columns. *)
Definition spam_frame (n : nat) : DataFrame :=
  {| index := seq 0 n;
     columns :=
       [("v1", map (λ i, Str (if Nat.even i then "ham" else "spam")) (seq 0 n));
        ("v2", map (λ i, Num (Z.of_nat i)) (seq 0 n));
        ("Unnamed: 2", replicate n NaN);
        ("Unnamed: 3", replicate n NaN);
        ("Unnamed: 4", replicate n NaN)] |}.

(** The same with a sixth column. *)
Definition spam_frame_extra (n : nat) : DataFrame :=
  {| index := seq 0 n;
     columns := columns (spam_frame n) ++ [("v3", replicate n (Str "x"))] |}.

(** Placeholders and [v2], but no [v1]. *)
Definition spam_frame_no_v1 (n : nat) : DataFrame :=
  {| index := seq 0 n;
     columns :=
       [("Unnamed: 2", replicate n NaN);
        ("Unnamed: 3", replicate n NaN);
        ("Unnamed: 4", replicate n NaN);
        ("v2", map (λ i, Num (Z.of_nat i)) (seq 0 n))] |}.

(** A small generator to run the pipeline with: [permutation] rotates
    [0 .. n-1] by the state.  It stands where numpy has the Mersenne
    Twister; the statements below hold for every generator. *)
Definition rotating_random : NumpyRandom.
Proof.
  refine {| rng_state := Z;
            RandomState seed := seed;
            permutation g n :=
              (rotate (Z.to_nat g) (seq 0 n), ((g * 5 + 1) mod 64)%Z) |}.
  intros g n. simpl. unfold rotate.
  rewrite Permutation_app_comm. by rewrite take_drop.
Defined.

(** A world with nothing logged and nothing on disk. *)
Definition fresh_world : @World rotating_random :=
  @mkWorld rotating_random [] ∅ ∅ 0%Z.

(** No configuration file anywhere; the source URL yields [df]; every
    write is allowed. *)
Definition env_serving (df : DataFrame) : Env :=
  {| yaml_document path := inl (FileNotFoundError path);
     csv_resource url := inr df;
     makedirs_error path := None;
     makedirs_progress path := 0;
     to_csv_outcome path := Written |}.

(** The source cannot be read: [read_csv] raises [e]. *)
Definition env_failing_source (e : exn) : Env :=
  {| yaml_document path := inl (FileNotFoundError path);
     csv_resource url := inl e;
     makedirs_error path := None;
     makedirs_progress path := 0;
     to_csv_outcome path := Written |}.

(** Everything works except the write of [test.csv]. *)
Definition env_test_csv_refused (df : DataFrame) : Env :=
  {| yaml_document path := inl (FileNotFoundError path);
     csv_resource url := inr df;
     makedirs_error path := None;
     makedirs_progress path := 0;
     to_csv_outcome path :=
       if decide (path = "data/raw/test.csv")
       then Refused (OSError "Permission denied") else Written |}.

(** ** Facts about the monad and the handler *)

Section Handler.
Context `{!NumpyRandom}.

Lemma bind_Return {A B} (m : M A) (k : A → M B) w a w' :
  m w = (Return a, w') → (m ≫= k) w = k a w'.
Proof. intros Hm. unfold mbind, M_bind. by rewrite Hm. Qed.

Lemma bind_Raise {A B} (m : M A) (k : A → M B) w e w' :
  m w = (Raise e, w') → (m ≫= k) w = (Raise e, w').
Proof. intros Hm. unfold mbind, M_bind. by rewrite Hm. Qed.

Lemma try_except_log_Return {A} (body : M A) msg w a w' :
  body w = (Return a, w') → try_except_log body msg w = (Return a, w').
Proof. intros Hb. unfold try_except_log. by rewrite Hb. Qed.

Lemma try_except_log_Raise {A} (body : M A) msg w e w' :
  body w = (Raise e, w') →
  try_except_log body msg w =
    (Raise e, if isinstance_Exception e then emit ERROR msg [ArgExn e] w' else w').
Proof. intros Hb. unfold try_except_log. rewrite Hb. by destruct (isinstance_Exception e). Qed.

Lemma files_emit l msg args w : files (emit l msg args w) = files w.
Proof. done. Qed.

Lemma dirs_emit l msg args w : dirs (emit l msg args w) = dirs w.
Proof. done. Qed.

End Handler.

(** ** Facts about [drop] and [rename] *)

Lemma drop_columns_Return labels df :
  labels ⊆ column_names df →
  drop_columns labels df =
    Return {| index := index df;
              columns := filter (λ c, c.1 ∉ labels) (columns df) |}.
Proof.
  intros Hsub. unfold drop_columns.
  destruct (filter (λ l, l ∉ column_names df) labels) as [|l rest] eqn:Hf; [done|].
  assert (l ∈ filter (λ l, l ∉ column_names df) labels) as Hin
    by (rewrite Hf; apply list_elem_of_here).
  apply list_elem_of_filter in Hin as [Hnot Hl]. destruct Hnot. by apply Hsub.
Qed.

Lemma drop_columns_Raise labels df :
  ¬ labels ⊆ column_names df →
  let missing := filter (λ l, l ∉ column_names df) labels in
  missing ≠ [] ∧ drop_columns labels df = Raise (KeyError (not_found labels df)).
Proof.
  intros Hsub missing. assert (Hne : missing ≠ []).
  { intros Hnil. apply Hsub. intros l Hl.
    destruct (decide (l ∈ column_names df)) as [|Hnot]; [done|].
    assert (l ∈ missing) as Hin by (by apply list_elem_of_filter).
    rewrite Hnil in Hin. by apply not_elem_of_nil in Hin. }
  split; [done|]. unfold drop_columns. fold missing. by destruct missing.
Qed.

(** What a [KeyError] of [drop] names is never empty and within the list
    asked for; on unique column labels it is the absent labels. *)
Lemma not_found_spec labels df :
  ¬ labels ⊆ column_names df →
  not_found labels df ≠ [] ∧
  not_found labels df ⊆ labels ∧
  (NoDup (column_names df) →
   not_found labels df = filter (λ l, l ∉ column_names df) labels) ∧
  (¬ NoDup (column_names df) → not_found labels df = labels).
Proof.
  intros Hsub. destruct (drop_columns_Raise _ _ Hsub) as [Hne _].
  unfold not_found. destruct (decide (NoDup (column_names df))) as [Hu|Hu].
  - split; [done|]. split; [|done].
    intros l Hl. by apply list_elem_of_filter in Hl as [_ ?].
  - split; [|done]. intros ->. apply Hsub. intros l Hl.
    by apply not_elem_of_nil in Hl.
Qed.

Lemma rename_label_other c :
  c ≠ "v1" → c ≠ "v2" → rename_label canonical_names c = c.
Proof.
  intros H1 H2. unfold rename_label, canonical_names.
  rewrite lookup_insert_ne by done. by rewrite lookup_singleton_ne.
Qed.

Lemma rename_label_v1 : rename_label canonical_names "v1" = "target".
Proof. done. Qed.

Lemma rename_label_v2 : rename_label canonical_names "v2" = "text".
Proof. done. Qed.

Lemma not_placeholder c :
  bool_decide (c ∈ placeholders) = false → c ∉ placeholders.
Proof. intros Hc. by apply (bool_decide_eq_false_1 _). Qed.

Lemma has_placeholders df :
  bool_decide (placeholders ⊆ column_names df) = true →
  placeholders ⊆ column_names df.
Proof. intros Hc. by apply (bool_decide_eq_true_1 _). Qed.

(** ** The preprocessor *)

Section Preprocessor.
Context `{!NumpyRandom}.

Lemma preprocess_data_Return df w :
  placeholders ⊆ column_names df →
  preprocess_data df w =
    (Return (preprocessed df), emit DEBUG "Data preprocessing completed" [] w).
Proof.
  intros Hsub. unfold preprocess_data. apply try_except_log_Return.
  unfold mbind, M_bind, of_result.
  change ["Unnamed: 2"; "Unnamed: 3"; "Unnamed: 4"] with placeholders.
  by rewrite (drop_columns_Return _ _ Hsub).
Qed.

Lemma preprocess_data_Raise df w :
  ¬ placeholders ⊆ column_names df →
  let e := KeyError (not_found placeholders df) in
  preprocess_data df w =
    (Raise e, emit ERROR "Error during preprocessing: %s" [ArgExn e] w).
Proof.
  intros Hsub e. destruct (drop_columns_Raise _ _ Hsub) as [_ Hdrop].
  unfold preprocess_data.
  rewrite (try_except_log_Raise _ _ w e w); [done|].
  unfold mbind, M_bind, of_result.
  change ["Unnamed: 2"; "Unnamed: 3"; "Unnamed: 4"] with placeholders.
  by rewrite Hdrop.
Qed.

(** C9. On a frame that has the three placeholder columns,
    [preprocess_data] returns a frame with the same row labels whose
    columns are the input's columns, in their order, minus the placeholders,
    each with its values untouched and its name kept unless it is [v1]
    (then [target]) or [v2] (then [text]).  So a column beyond the five
    survives under its own name, and nothing appears that was not there. *)
Theorem preprocess_data_frame (df : DataFrame) (w : World) :
  placeholders ⊆ column_names df →
  ∃ out,
    preprocess_data df w =
      (Return out, emit DEBUG "Data preprocessing completed" [] w) ∧
    index out = index df ∧
    len out = len df ∧
    (columns out).*2 = (without_placeholders df).*2 ∧
    column_names out = map (rename_label canonical_names) (without_placeholders df).*1 ∧
    (∀ c vs, (c, vs) ∈ columns df → c ∉ placeholders →
             c ≠ "v1" → c ≠ "v2" → (c, vs) ∈ columns out) ∧
    (∀ vs, ("v1", vs) ∈ columns df → ("target", vs) ∈ columns out) ∧
    (∀ vs, ("v2", vs) ∈ columns df → ("text", vs) ∈ columns out) ∧
    (∀ c vs, (c, vs) ∈ columns out →
             ∃ c0, (c0, vs) ∈ columns df ∧ (c0 ∉ placeholders) ∧
                   c = rename_label canonical_names c0).
Proof.
  intros Hsub. exists (preprocessed df).
  assert (Hkeep : ∀ c vs, (c, vs) ∈ columns df → c ∉ placeholders →
            (rename_label canonical_names c, vs) ∈ columns (preprocessed df)).
  { intros c vs Hin Hc. simpl. apply list_elem_of_fmap.
    exists (c, vs). split; [done|]. by apply list_elem_of_filter. }
  split; [by apply preprocess_data_Return|].
  split; [done|]. split; [done|].
  split. { simpl. induction (without_placeholders df) as [|[c vs] l IH]; [done|]. simpl. by f_equal. }
  split. { unfold column_names. simpl.
           induction (without_placeholders df) as [|[c vs] l IH]; [done|]. simpl. by f_equal. }
  split. { intros c vs Hin Hc H1 H2. rewrite <- (rename_label_other c) by done. by apply Hkeep. }
  split. { intros vs Hin. rewrite <- rename_label_v1. apply Hkeep; [done|]. by apply not_placeholder. }
  split. { intros vs Hin. rewrite <- rename_label_v2. apply Hkeep; [done|]. by apply not_placeholder. }
  intros c vs Hin. simpl in Hin. apply list_elem_of_fmap in Hin as [[c0 vs0] [Heq Hin]].
  apply list_elem_of_filter in Hin as [Hc0 Hin]. simpl in *.
  injection Heq as -> ->. by exists c0.
Qed.

(** C1, amended.  On a frame that has the three placeholder columns and
    whose other columns are exactly [v1] followed by [v2],
    [preprocess_data] returns the two columns [target] and [text], in that
    order, holding the values of [v1] and [v2] under the input's row
    labels: same rows, same count, same order. *)
Theorem preprocess_data_target_text (df : DataFrame) (w : World) xs ys :
  placeholders ⊆ column_names df →
  without_placeholders df = [("v1", xs); ("v2", ys)] →
  ∃ out,
    preprocess_data df w =
      (Return out, emit DEBUG "Data preprocessing completed" [] w) ∧
    column_names out = ["target"; "text"] ∧
    columns out = [("target", xs); ("text", ys)] ∧
    index out = index df ∧
    len out = len df.
Proof.
  intros Hsub Hcols. exists (preprocessed df).
  split; [by apply preprocess_data_Return|].
  unfold column_names, preprocessed. simpl. rewrite Hcols. done.
Qed.

(** C6, amended.  [preprocess_data] fails exactly when one of the three
    placeholder columns is absent: it then logs a [KeyError] at error level
    and re-raises it.  On a frame whose column labels are all different the
    [KeyError] names the absent placeholders, and only those; on a frame
    with a repeated column label it names all three.  With the three
    placeholders present it returns a frame, whether or not [v1] and [v2]
    are there: [rename] skips a name that is not a column. *)
Theorem preprocess_data_fails_iff (df : DataFrame) (w : World) :
  (placeholders ⊆ column_names df ∧
   ∃ out, preprocess_data df w =
            (Return out, emit DEBUG "Data preprocessing completed" [] w)) ∨
  (¬ placeholders ⊆ column_names df ∧
   ∃ named, named ≠ [] ∧ named ⊆ placeholders ∧
     (NoDup (column_names df) →
      named = filter (λ l, l ∉ column_names df) placeholders ∧
      ∀ l, l ∈ named → l ∉ column_names df) ∧
     (¬ NoDup (column_names df) → named = placeholders) ∧
     preprocess_data df w =
       (Raise (KeyError named),
        emit ERROR "Error during preprocessing: %s" [ArgExn (KeyError named)] w)).
Proof.
  destruct (decide (placeholders ⊆ column_names df)) as [Hsub|Hsub].
  - left. split; [done|]. eexists. by apply preprocess_data_Return.
  - right. split; [done|].
    destruct (not_found_spec _ _ Hsub) as (Hne & Hin & Huniq & Hrep).
    exists (not_found placeholders df).
    split; [done|]. split; [done|].
    split.
    { intros Hu. split; [by apply Huniq|]. intros l. rewrite (Huniq Hu).
      intros Hl. by apply list_elem_of_filter in Hl as [? _]. }
    split; [done|]. by apply preprocess_data_Raise.
Qed.

End Preprocessor.

(** The frame of the statement of C9: six columns, all of the sixth kept. *)
Lemma preprocess_data_frame_witness :
  placeholders ⊆ column_names (spam_frame_extra 2) ∧
  ∃ out, (preprocess_data (spam_frame_extra 2) fresh_world).1 = Return out ∧
         ("v3", [Str "x"; Str "x"]) ∈ columns out.
Proof.
  assert (Hsub : placeholders ⊆ column_names (spam_frame_extra 2))
    by (by apply has_placeholders).
  split; [done|].
  destruct (preprocess_data_frame (spam_frame_extra 2) fresh_world Hsub)
    as (out & Hrun & _ & _ & _ & _ & Hkeep & _).
  exists out. split; [by rewrite Hrun|].
  apply Hkeep; [|by apply not_placeholder|done|done].
  apply list_elem_of_lookup. by exists 5.
Defined.

(** The frame of the statement of C1: the five columns of the spam table. *)
Lemma preprocess_data_target_text_witness :
  ∃ out, (preprocess_data (spam_frame 3) fresh_world).1 = Return out ∧
         column_names out = ["target"; "text"] ∧ len out = 3.
Proof.
  destruct (preprocess_data_target_text (spam_frame 3) fresh_world
              [Str "ham"; Str "spam"; Str "ham"] [Num 0; Num 1; Num 2])
    as (out & Hrun & Hnames & _ & _ & Hlen).
  - by apply has_placeholders.
  - reflexivity.
  - exists out. rewrite Hrun, Hnames, Hlen. done.
Defined.

(** C1 fails on a frame with a sixth column: the frame meets every
    condition of the claim, and the output has three columns. *)
Lemma preprocess_data_keeps_sixth_column :
  (5 ≤ length (columns (spam_frame_extra 2)))%nat ∧
  "v1" ∈ column_names (spam_frame_extra 2) ∧
  "v2" ∈ column_names (spam_frame_extra 2) ∧
  placeholders ⊆ column_names (spam_frame_extra 2) ∧
  (preprocess_data (spam_frame_extra 2) fresh_world).1 =
    Return {| index := [0; 1];
              columns := [("target", [Str "ham"; Str "spam"]);
                          ("text", [Num 0; Num 1]);
                          ("v3", [Str "x"; Str "x"])] |} ∧
  ["target"; "text"; "v3"] ≠ ["target"; "text"].
Proof.
  split; [vm_compute; lia|].
  split; [apply list_elem_of_lookup; by exists 0|].
  split; [apply list_elem_of_lookup; by exists 1|].
  split; [by apply has_placeholders|].
  split; [reflexivity|discriminate].
Qed.

(** C6 fails on a frame without [v1]: the preprocessor returns a frame. *)
Lemma preprocess_data_without_v1_returns :
  ("v1" ∉ column_names (spam_frame_no_v1 2)) ∧
  (preprocess_data (spam_frame_no_v1 2) fresh_world).1 =
    Return {| index := [0; 1]; columns := [("text", [Num 0; Num 1])] |} ∧
  log (preprocess_data (spam_frame_no_v1 2) fresh_world).2 =
    [mkLogRecord DEBUG "Data preprocessing completed" []].
Proof.
  split; [by apply (bool_decide_eq_false_1 _)|].
  split; reflexivity.
Qed.

(** A frame without [Unnamed: 3] and [Unnamed: 4]: the [KeyError] names both. *)
Example preprocess_data_missing_placeholders :
  preprocess_data
    {| index := [0]; columns := [("v1", [Str "ham"]); ("Unnamed: 2", [NaN])] |}
    fresh_world =
  (Raise (KeyError ["Unnamed: 3"; "Unnamed: 4"]),
   emit ERROR "Error during preprocessing: %s"
        [ArgExn (KeyError ["Unnamed: 3"; "Unnamed: 4"])] fresh_world).
Proof. reflexivity. Qed.

(** The same with [v1] twice: the column labels repeat, and the [KeyError]
    names the three placeholders, [Unnamed: 2] included though it is there. *)
Example preprocess_data_missing_placeholders_repeated :
  preprocess_data
    {| index := [0];
       columns := [("v1", [Str "ham"]); ("v1", [Str "ham"]); ("Unnamed: 2", [NaN])] |}
    fresh_world =
  (Raise (KeyError ["Unnamed: 2"; "Unnamed: 3"; "Unnamed: 4"]),
   emit ERROR "Error during preprocessing: %s"
        [ArgExn (KeyError ["Unnamed: 2"; "Unnamed: 3"; "Unnamed: 4"])] fresh_world).
Proof. reflexivity. Qed.

(** [os.makedirs("data/raw")] makes [data] on the way. *)
Example save_data_makes_both_directories :
  dirs (save_data (env_serving (spam_frame 3))
          (iloc [2; 0] (preprocessed (spam_frame 3)))
          (iloc [1] (preprocessed (spam_frame 3))) fresh_world).2 =
    {["data/raw"; "data"]}.
Proof. by vm_compute. Qed.

(** ** Loading, saving *)

Section Stages.
Context `{!NumpyRandom}.
Variable env : Env.

Lemma try_except_log_handled {A} (body : M A) msg w e w' :
  body w = (Raise e, w') →
  try_except_log body msg w = (Raise e, handled msg e w').
Proof.
  intros Hb. rewrite (try_except_log_Raise _ _ _ _ _ Hb).
  unfold handled. by destruct (isinstance_Exception e).
Qed.

Lemma files_handled msg e w : files (handled msg e w) = files w.
Proof. unfold handled. by destruct (isinstance_Exception e). Qed.

Lemma dirs_handled msg e w : dirs (handled msg e w) = dirs w.
Proof. unfold handled. by destruct (isinstance_Exception e). Qed.

Lemma np_random_handled msg e w : np_random (handled msg e w) = np_random w.
Proof. unfold handled. by destruct (isinstance_Exception e). Qed.

Lemma load_params_Return path params w :
  yaml_document env path = inr params →
  load_params env path w =
    (Return params, emit DEBUG "Parameters loaded from %s" [ArgStr path] w).
Proof.
  intros Hdoc. unfold load_params. apply try_except_log_Return.
  unfold mbind, M_bind, open_safe_load, of_sum. by rewrite Hdoc.
Qed.

Lemma load_params_Raise path e w :
  yaml_document env path = inl e →
  load_params env path w =
    (Raise e, handled "Error loading parameters: %s" e w).
Proof.
  intros Hdoc. unfold load_params. apply try_except_log_handled.
  unfold mbind, M_bind, open_safe_load, of_sum. by rewrite Hdoc.
Qed.

Lemma load_data_Return url df w :
  csv_resource env url = inr df →
  load_data env url w =
    (Return df, emit DEBUG "Data loaded from %s" [ArgStr url] w).
Proof.
  intros Hcsv. unfold load_data. apply try_except_log_Return.
  unfold mbind, M_bind, read_csv, of_sum. by rewrite Hcsv.
Qed.

Lemma load_data_Raise url e w :
  csv_resource env url = inl e →
  load_data env url w = (Raise e, handled "Error loading data: %s" e w).
Proof.
  intros Hcsv. unfold load_data. apply try_except_log_handled.
  unfold mbind, M_bind, read_csv, of_sum. by rewrite Hcsv.
Qed.

Lemma save_data_makedirs_Raise train_df test_df e w :
  makedirs_error env "data/raw" = Some e →
  save_data env train_df test_df w =
    (Raise e, handled "Error saving data: %s" e (partly_made env "data/raw" w)).
Proof.
  intros Hmk. unfold save_data. apply try_except_log_handled.
  unfold mbind, M_bind, os_makedirs.
  change (os_path_join "data" "raw") with "data/raw". by rewrite Hmk.
Qed.

Lemma save_data_train_Raise train_df test_df o e w :
  makedirs_error env "data/raw" = None →
  to_csv_outcome env "data/raw/train.csv" = o →
  write_error o = Some e →
  save_data env train_df test_df w =
    (Raise e,
     handled "Error saving data: %s" e
       (after_failed_write "data/raw/train.csv" o (mkdir "data/raw" w))).
Proof.
  intros Hmk Htrain Herr. unfold save_data. apply try_except_log_handled.
  unfold mbind, M_bind, os_makedirs, to_csv.
  change (os_path_join "data" "raw") with "data/raw".
  change (os_path_join "data/raw" "train.csv") with "data/raw/train.csv".
  rewrite Hmk, Htrain. by destruct o; simplify_eq/=.
Qed.

Lemma save_data_test_Raise train_df test_df o e w :
  makedirs_error env "data/raw" = None →
  to_csv_outcome env "data/raw/train.csv" = Written →
  to_csv_outcome env "data/raw/test.csv" = o →
  write_error o = Some e →
  save_data env train_df test_df w =
    (Raise e,
     handled "Error saving data: %s" e
       (after_failed_write "data/raw/test.csv" o
          (store "data/raw/train.csv" (to_csv_text train_df)
             (mkdir "data/raw" w)))).
Proof.
  intros Hmk Htrain Htest Herr. unfold save_data. apply try_except_log_handled.
  unfold mbind, M_bind, os_makedirs, to_csv.
  change (os_path_join "data" "raw") with "data/raw".
  change (os_path_join "data/raw" "train.csv") with "data/raw/train.csv".
  change (os_path_join "data/raw" "test.csv") with "data/raw/test.csv".
  rewrite Hmk, Htrain, Htest. by destruct o; simplify_eq/=.
Qed.

Lemma save_data_Return train_df test_df w :
  makedirs_error env "data/raw" = None →
  to_csv_outcome env "data/raw/train.csv" = Written →
  to_csv_outcome env "data/raw/test.csv" = Written →
  save_data env train_df test_df w =
    (Return (),
     emit DEBUG "Train and test data saved to %s" [ArgStr "data/raw"]
       (store "data/raw/test.csv" (to_csv_text test_df)
          (store "data/raw/train.csv" (to_csv_text train_df)
             (mkdir "data/raw" w)))).
Proof.
  intros Hmk Htrain Htest. unfold save_data. apply try_except_log_Return.
  unfold mbind, M_bind, os_makedirs, to_csv, logger_debug.
  change (os_path_join "data" "raw") with "data/raw".
  change (os_path_join "data/raw" "train.csv") with "data/raw/train.csv".
  change (os_path_join "data/raw" "test.csv") with "data/raw/test.csv".
  by rewrite Hmk, Htrain, Htest.
Qed.

Lemma files_after_failed_write_ne path path' o w :
  path ≠ path' →
  files (after_failed_write path o w) !! path' = files w !! path'.
Proof. intros Hne. destruct o; simpl; [done|done|by rewrite lookup_insert_ne]. Qed.

End Stages.

(** ** Doubles: how far a rounded product is from the exact one *)

Module Float64Facts.
Import Float64.
Local Open Scope Z_scope.

Lemma round_shift_error (m d : Z) :
  0 ≤ m → 0 < d → Z.abs (round_shift m d * 2 ^ d - m) ≤ 2 ^ (d - 1).
Proof.
  intros Hm Hd. unfold round_shift.
  assert (Hp : 2 ^ d = 2 * 2 ^ (d - 1)).
  { rewrite <- Z.pow_succ_r by lia. f_equal. lia. }
  assert (Hh : 0 < 2 ^ (d - 1)) by (apply Z.pow_pos_nonneg; lia).
  pose proof (Z.div_mod m (2 ^ d) ltac:(lia)) as Hdm.
  pose proof (Z.mod_pos_bound m (2 ^ d) ltac:(lia)) as Hr.
  set (q := m / 2 ^ d) in *. set (r := m mod 2 ^ d) in *.
  set (h := 2 ^ (d - 1)) in *.
  destruct (Z.ltb_spec r h); [nia|].
  destruct (Z.ltb_spec h r); [nia|].
  destruct (Z.even q); nia.
Qed.

(** Rounding moves a value by at most [2^-53] of itself. *)
Lemma round_units (m e : Z) :
  0 ≤ m →
  e ≤ expo (round m e) ∧
  Z.abs (units (round m e) e - m) * 2 ^ prec ≤ m.
Proof.
  intros Hm. unfold round, units, excess.
  destruct (Z.leb_spec (Z.log2 m + 1 - prec) 0) as [Hd|Hd]; simpl.
  - split; [lia|]. rewrite Z.sub_diag. simpl. rewrite Z.mul_1_r, Z.sub_diag. simpl. lia.
  - set (d := Z.log2 m + 1 - prec) in *.
    assert (Hm0 : 0 < m).
    { destruct (Z.eq_dec m 0) as [->|]; [|lia]. simpl in d. unfold prec in *. lia. }
    pose proof (round_shift_error m d Hm ltac:(lia)) as Herr.
    pose proof (Z.log2_spec m Hm0) as [Hlo _].
    assert (Hpw : 2 ^ (d - 1) * 2 ^ prec = 2 ^ Z.log2 m).
    { rewrite <- Z.pow_add_r by (unfold prec in *; lia). f_equal. unfold d. lia. }
    assert (Hval : ∀ q, Z.abs (q * 2 ^ d - m) ≤ 2 ^ (d - 1) →
                        Z.abs (q * 2 ^ d - m) * 2 ^ prec ≤ m).
    { intros q Hq.
      assert (0 < 2 ^ prec) by (apply Z.pow_pos_nonneg; unfold prec; lia). nia. }
    destruct (Z.eqb_spec (round_shift m d) (2 ^ prec)) as [Heq|Hne]; simpl.
    + split; [lia|]. replace (e + d + 1 - e) with (d + 1) by lia.
      replace (2 ^ (prec - 1) * 2 ^ (d + 1)) with (round_shift m d * 2 ^ d);
        [by apply Hval|].
      rewrite Heq. rewrite <- !Z.pow_add_r by (unfold prec; lia). f_equal. lia.
    + split; [lia|]. replace (e + d - e) with d by lia. by apply Hval.
Qed.

Lemma ceil_units (x : t) (e : Z) :
  e < 0 → e ≤ expo x → ceil x = - ((- units x e) / 2 ^ (- e)).
Proof.
  intros He Hx. unfold ceil, units.
  destruct (Z.leb_spec 0 (expo x)) as [Hpos|Hneg].
  - replace (expo x - e) with (expo x + - e) by lia.
    rewrite Z.pow_add_r by lia.
    rewrite Z.mul_assoc, <- Z.mul_opp_l, Z.div_mul; [lia|].
    apply Z.pow_nonzero; lia.
  - replace (2 ^ (- e)) with (2 ^ (- expo x) * 2 ^ (expo x - e)).
    2:{ rewrite <- Z.pow_add_r by lia. f_equal. lia. }
    rewrite <- Z.mul_opp_l.
    rewrite Z.div_mul_cancel_r; [done| |]; apply Z.pow_nonzero; lia.
Qed.

(** A row count below [2^53] is a double as it stands. *)
Lemma of_int_exact (n : Z) : 0 ≤ n < 2 ^ prec → of_int n = mk n 0.
Proof.
  intros [Hn Hlt]. unfold of_int, round, excess.
  destruct (Z.eq_dec n 0) as [->|Hne]; [done|].
  assert (Z.log2 n < prec) by (apply Z.log2_lt_pow2; lia).
  destruct (Z.leb_spec (Z.log2 n + 1 - prec) 0); [done|lia].
Qed.

Lemma units_round (m e : Z) :
  0 ≤ m →
  e ≤ expo (round m e) ∧
  units (round m e) e =
    if excess m <=? 0 then m else round_shift m (excess m) * 2 ^ excess m.
Proof.
  intros Hm. unfold round, units.
  destruct (Z.leb_spec (excess m) 0) as [Hd|Hd]; simpl.
  - split; [lia|]. rewrite Z.sub_diag. simpl. lia.
  - destruct (Z.eqb_spec (round_shift m (excess m)) (2 ^ prec)) as [Heq|Hne]; simpl.
    + split; [lia|]. replace (e + excess m + 1 - e) with (excess m + 1) by lia.
      rewrite Heq. rewrite <- !Z.pow_add_r by (unfold prec; lia).
      f_equal. unfold prec. lia.
    + split; [lia|]. by replace (e + excess m - e) with (excess m) by lia.
Qed.

Lemma round_shift_upper (m d : Z) :
  0 ≤ m → 0 < d →
  round_shift m d * 2 ^ d ≤ (m / 2 ^ d + 1) * 2 ^ d ∧
  (m mod 2 ^ d = 0 → round_shift m d * 2 ^ d = m).
Proof.
  intros Hm Hd. unfold round_shift.
  assert (Hh : 0 < 2 ^ (d - 1)) by (apply Z.pow_pos_nonneg; lia).
  assert (Hp : 0 < 2 ^ d) by (apply Z.pow_pos_nonneg; lia).
  pose proof (Z.div_mod m (2 ^ d) ltac:(lia)) as Hdm.
  split.
  - destruct (m mod 2 ^ d <? 2 ^ (d - 1)); [nia|].
    destruct (2 ^ (d - 1) <? m mod 2 ^ d); [lia|].
    destruct (Z.even (m / 2 ^ d)); nia.
  - intros H0. rewrite H0 in *.
    destruct (Z.ltb_spec 0 (2 ^ (d - 1))); [lia|lia].
Qed.

(** Rounding never passes a multiple of [2^s] that the value is below,
    when no more than [s] bits are dropped. *)
Lemma round_le_multiple (m e s t : Z) :
  0 ≤ m → 0 ≤ s → excess m ≤ s → m ≤ 2 ^ s * t →
  units (round m e) e ≤ 2 ^ s * t.
Proof.
  intros Hm Hs Hex Hle. destruct (units_round m e Hm) as [_ ->].
  destruct (Z.leb_spec (excess m) 0) as [Hd|Hd]; [done|].
  set (d := excess m) in *.
  destruct (round_shift_upper m d Hm Hd) as [Hup Hexact].
  assert (Hp : 0 < 2 ^ d) by (apply Z.pow_pos_nonneg; lia).
  assert (Hsplit : 2 ^ s = 2 ^ d * 2 ^ (s - d)).
  { rewrite <- Z.pow_add_r by lia. f_equal. lia. }
  rewrite Hsplit in *. rewrite <- Z.mul_assoc in *.
  set (u := 2 ^ (s - d) * t) in *.
  destruct (Z.eq_dec (m mod 2 ^ d) 0) as [H0|Hn0]; [by rewrite Hexact|].
  pose proof (Z.div_mod m (2 ^ d) ltac:(lia)) as Hdm.
  pose proof (Z.mod_pos_bound m (2 ^ d) Hp) as Hr.
  assert (m / 2 ^ d < u) by nia.
  nia.
Qed.

Lemma excess_bound (m b : Z) : 0 ≤ m < 2 ^ b → 0 ≤ b → excess m ≤ b - prec + 1.
Proof.
  intros [Hm Hlt] Hb. unfold excess.
  destruct (Z.eq_dec m 0) as [->|Hne]; [simpl; lia|].
  assert (Z.log2 m < b) by (apply Z.log2_lt_pow2; lia). lia.
Qed.

End Float64Facts.

(** On these row counts [Float64.mul] is the library's binary64 product,
    bit for bit. *)
Example mul_agrees_with_SFmul :
  forallb agrees_with_SFmul
    [1; 2; 3; 50; 100; 5572; 1000003; 2 ^ 31 + 7; 2 ^ 52 + 12345; 2 ^ 53 - 1]%Z
  = true.
Proof. vm_compute. reflexivity. Qed.

Local Open Scope Z_scope.

(** [0.21] reads as the double nearest to 21/100: 53 significant bits, at
    most half a unit in the last place away. *)
Lemma test_size_0_21_nearest :
  2 ^ 52 ≤ Float64.mant test_size_0_21 < 2 ^ 53 ∧
  Float64.expo test_size_0_21 = -55 ∧
  nearest (Float64.mant test_size_0_21) (21 * 2 ^ 55) 100.
Proof. unfold nearest. simpl. lia. Qed.

Lemma round_half_even_nearest (num den : Z) :
  0 < den → nearest (round_half_even num den) num den.
Proof.
  intros Hd. unfold nearest, round_half_even.
  pose proof (Z.div_mod num den ltac:(lia)).
  pose proof (Z.mod_pos_bound num den Hd).
  destruct (Z.ltb_spec (2 * (num mod den)) den); [lia|].
  destruct (Z.ltb_spec den (2 * (num mod den))); [lia|].
  destruct (Z.even (num / den)); lia.
Qed.

(** [ceil(0.21 * n)] in doubles, against the exact 21n/100. *)
Lemma n_test_0_21 (n : Z) :
  0 ≤ n < 2 ^ 53 →
  ∃ V, Float64.ceil (Float64.mul test_size_0_21 (Float64.of_int n)) =
         - ((- V) / 2 ^ 55) ∧
       Z.abs (V - 7566047373982433 * n) * 2 ^ 53 ≤ 7566047373982433 * n.
Proof.
  intros Hn. rewrite Float64Facts.of_int_exact by done.
  unfold Float64.mul; simpl Float64.mant; simpl Float64.expo.
  replace (-55 + 0) with (-55) by lia.
  destruct (Float64Facts.round_units (7566047373982433 * n) (-55) ltac:(lia))
    as [He Herr].
  exists (Float64.units (Float64.round (7566047373982433 * n) (-55)) (-55)).
  split; [|exact Herr].
  by rewrite (Float64Facts.ceil_units _ (-55)).
Qed.

(** Below [2^48] rows the doubles give the exact ceiling of 21n/100. *)
Lemma n_test_0_21_exact (n : Z) :
  0 ≤ n < 2 ^ 48 →
  Float64.ceil (Float64.mul test_size_0_21 (Float64.of_int n)) = ceil_div (21 * n) 100.
Proof.
  intros Hn. rewrite Float64Facts.of_int_exact by (unfold Float64.prec; lia).
  unfold Float64.mul; simpl Float64.mant; simpl Float64.expo.
  replace (-55 + 0) with (-55) by lia.
  set (P := 7566047373982433 * n).
  destruct (Float64Facts.round_units P (-55) ltac:(lia)) as [He Herr].
  rewrite (Float64Facts.ceil_units _ (-55)) by (done || lia).
  unfold ceil_div. set (k := - ((- (21 * n)) / 100)).
  assert (Hk : 100 * (k - 1) < 21 * n ≤ 100 * k).
  { unfold k. pose proof (Z.div_mod (- (21 * n)) 100 ltac:(lia)).
    pose proof (Z.mod_pos_bound (- (21 * n)) 100 ltac:(lia)). lia. }
  assert (Hup : Float64.units (Float64.round P (-55)) (-55) ≤ 2 ^ 55 * k).
  { apply Float64Facts.round_le_multiple; [lia|lia| |].
    - assert (Float64.excess P ≤ 101 - Float64.prec + 1);
        [|unfold Float64.prec in *; lia].
      apply Float64Facts.excess_bound; [|lia].
      change (2 ^ 101) with (2 ^ 53 * 2 ^ 48).
      change (2 ^ 53) with 9007199254740992. lia.
    - change (2 ^ 55) with 36028797018963968. lia. }
  set (V := Float64.units (Float64.round P (-55)) (-55)) in *.
  change (- -55) with 55.
  change (2 ^ Float64.prec) with 9007199254740992 in *.
  change (2 ^ 55) with 36028797018963968 in *.
  change (2 ^ 48) with 281474976710656 in *.
  pose proof (Z.div_mod (- V) 36028797018963968 ltac:(lia)).
  pose proof (Z.mod_pos_bound (- V) 36028797018963968 ltac:(lia)).
  lia.
Qed.

Lemma sizes_0_21 (n V c : Z) :
  2 ≤ n < 2 ^ 53 →
  Z.abs (V - 7566047373982433 * n) * 2 ^ 53 ≤ 7566047373982433 * n →
  c = - ((- V) / 2 ^ 55) →
  1 ≤ c < n ∧
  (∀ r, nearest r (21 * n) 100 → Z.abs (c - r) ≤ 1) ∧
  (∀ r, nearest r (79 * n) 100 → Z.abs (n - c - r) ≤ 1).
Proof.
  intros Hn HV ->. unfold nearest.
  change (2 ^ 53) with 9007199254740992 in *.
  change (2 ^ 55) with 36028797018963968.
  pose proof (Z.div_mod (- V) 36028797018963968 ltac:(lia)).
  pose proof (Z.mod_pos_bound (- V) 36028797018963968 ltac:(lia)).
  set (c := - V `div` 36028797018963968) in *.
  repeat split; try lia; intros r Hr; lia.
Qed.

(** The sizes [train_test_split] settles on for [test_size=0.21]. *)
Lemma validate_shuffle_split_0_21 (n_samples : nat) :
  2 ≤ Z.of_nat n_samples < 2 ^ 53 →
  ∃ n_test,
    n_test =
      Float64.ceil (Float64.mul test_size_0_21 (Float64.of_int (Z.of_nat n_samples))) ∧
    validate_shuffle_split n_samples test_size_0_21 =
      Return (Z.of_nat n_samples - n_test, n_test) ∧
    1 ≤ n_test < Z.of_nat n_samples ∧
    (∀ r, nearest r (21 * Z.of_nat n_samples) 100 → Z.abs (n_test - r) ≤ 1) ∧
    (∀ r, nearest r (79 * Z.of_nat n_samples) 100 →
          Z.abs (Z.of_nat n_samples - n_test - r) ≤ 1).
Proof.
  intros Hn. destruct (n_test_0_21 (Z.of_nat n_samples) ltac:(lia)) as (V & Hc & HV).
  destruct (sizes_0_21 _ V _ Hn HV Hc) as (Hrange & Htest & Htrain).
  eexists. split; [reflexivity|].
  split; [|split; [exact Hrange|split; [exact Htest|exact Htrain]]].
  unfold validate_shuffle_split.
  change (Float64.le_0 test_size_0_21 || Float64.ge_1 test_size_0_21) with false.
  cbv iota.
  set (c := Float64.ceil _) in *.
  destruct (Z.ltb_spec (Z.of_nat n_samples) (Z.of_nat n_samples - c + c)); [lia|].
  destruct (Z.eqb_spec (Z.of_nat n_samples - c) 0); [lia|done].
Qed.

Lemma validate_shuffle_split_small (n_samples : nat) :
  (n_samples < 2)%nat →
  validate_shuffle_split n_samples test_size_0_21 =
    Raise (ValueError "the resulting train set will be empty").
Proof.
  intros Hn. destruct n_samples as [|[|n]]; [reflexivity|reflexivity|lia].
Qed.

(** Whatever [test_size], the two sizes add up to the row count and the
    train size is not zero. *)
Lemma validate_shuffle_split_Return n_samples test_size n_train n_test :
  validate_shuffle_split n_samples test_size = Return (n_train, n_test) →
  n_train = Z.of_nat n_samples - n_test ∧ n_train ≠ 0.
Proof.
  unfold validate_shuffle_split. intros Hv.
  destruct (Float64.le_0 test_size || Float64.ge_1 test_size); [done|].
  destruct (Z.ltb_spec (Z.of_nat n_samples) (Z.of_nat n_samples -
    Float64.ceil (Float64.mul test_size (Float64.of_int (Z.of_nat n_samples))) +
    Float64.ceil (Float64.mul test_size (Float64.of_int (Z.of_nat n_samples)))));
    [done|].
  destruct (Z.eqb_spec (Z.of_nat n_samples -
    Float64.ceil (Float64.mul test_size (Float64.of_int (Z.of_nat n_samples)))) 0);
    [done|].
  injection Hv as <- <-. done.
Qed.

Local Close Scope Z_scope.

(** ** Selecting rows by position *)

Local Open Scope list_scope.

Lemma well_formed_iloc positions df : well_formed (iloc positions df).
Proof.
  unfold well_formed, iloc, len. simpl. apply Forall_forall.
  intros c Hc. apply list_elem_of_fmap in Hc as [c0 [-> _]]. simpl.
  by rewrite !length_map.
Qed.

Lemma well_formed_preprocessed df :
  well_formed df → well_formed (preprocessed df).
Proof.
  unfold well_formed, preprocessed, without_placeholders, len. simpl.
  intros Hwf. apply Forall_forall. intros c Hc.
  apply list_elem_of_fmap in Hc as [c0 [-> Hc0]]. simpl.
  apply list_elem_of_filter in Hc0 as [_ Hc0].
  by apply (proj1 (Forall_forall _ _) Hwf).
Qed.

Lemma len_iloc positions df : len (iloc positions df) = length positions.
Proof. unfold len, iloc. simpl. by rewrite length_map. Qed.

Lemma column_names_iloc positions df :
  column_names (iloc positions df) = column_names df.
Proof.
  unfold column_names, iloc. simpl.
  induction (columns df) as [|[c vs] l IH]; [done|]. simpl. by f_equal.
Qed.

(** Row [j] of a selection is the row of the frame at the [j]-th selected
    position: label and cells come along unchanged. *)
Lemma row_at_iloc positions df j :
  j < length positions →
  row_at (iloc positions df) j = row_at df (nth j positions 0).
Proof.
  intros Hj. unfold row_at, iloc. simpl. f_equal.
  - rewrite (nth_indep _ 0 (nth 0 (index df) 0)) by (by rewrite length_map).
    by rewrite (map_nth (λ i, nth i (index df) 0)).
  - rewrite map_map. apply map_ext. intros [c vs]. simpl.
    rewrite (nth_indep _ NaN (nth 0 vs NaN)) by (by rewrite length_map).
    by rewrite (map_nth (λ i, nth i vs NaN)).
Qed.

Lemma rows_iloc positions df :
  rows (iloc positions df) = map (row_at df) positions.
Proof.
  unfold rows. rewrite len_iloc.
  apply nth_ext with (d := row_at df 0) (d' := row_at df 0).
  { by rewrite !length_map, length_seq. }
  intros j Hj. rewrite length_map, length_seq in Hj.
  rewrite (nth_indep _ _ (row_at (iloc positions df) 0))
    by (by rewrite length_map, length_seq).
  rewrite (map_nth (row_at (iloc positions df))), seq_nth by done.
  rewrite (map_nth (row_at df)). by apply row_at_iloc.
Qed.

(** Cutting a shuffle of [n] positions after [n_test] and keeping the next
    [n - n_test] loses nothing. *)
Lemma take_drop_sizes {A} (l : list A) (n_test : Z) :
  take (Z.to_nat n_test) l ++
    take (Z.to_nat (Z.of_nat (length l) - n_test)) (drop (Z.to_nat n_test) l) = l.
Proof.
  rewrite (take_ge (drop _ _)) by (rewrite length_drop; lia).
  apply take_drop.
Qed.

(** ** The splitter *)

Section Splitter.
Context `{!NumpyRandom}.

Lemma length_permutation g n : length (permutation g n).1 = n.
Proof. by rewrite (Permutation_length (permutation_perm g n)), length_seq. Qed.

Lemma shuffled_perm random_state n w : shuffled random_state n w ≡ₚ seq 0 n.
Proof. destruct random_state; apply permutation_perm. Qed.

Lemma train_test_split_Raise df test_size random_state w e :
  validate_shuffle_split (len df) test_size = Raise e →
  train_test_split df test_size random_state w = (Raise e, w).
Proof.
  intros Hv. unfold train_test_split, mbind, M_bind, of_result. by rewrite Hv.
Qed.

Lemma train_test_split_Return df test_size random_state w n_train n_test :
  validate_shuffle_split (len df) test_size = Return (n_train, n_test) →
  train_test_split df test_size random_state w =
    (Return
       (iloc (take (Z.to_nat n_train)
                (drop (Z.to_nat n_test) (shuffled random_state (len df) w))) df,
        iloc (take (Z.to_nat n_test) (shuffled random_state (len df) w)) df),
     after_shuffle random_state (len df) w).
Proof.
  intros Hv. unfold train_test_split, mbind, M_bind, of_result. rewrite Hv.
  by destruct random_state.
Qed.

(** C3, amended.  On a frame of [n] rows, [2 <= n < 2^53], the split with
    [test_size=0.21] returns a train part and a test part whose row counts
    add up to [n], the test part having [ceil(0.21 * n)] rows as doubles
    compute it.  The two counts are each within one row of [round(0.79 n)]
    and [round(0.21 n)], the rounding being Python's (ties to even) on the
    exact product.  Below [2^48] rows they are exactly the ceiling of
    21n/100 and the floor of 79n/100. *)
Theorem train_test_split_sizes (df : DataFrame) (random_state : option Z)
    (w : World) :
  (2 ≤ Z.of_nat (len df) < 2 ^ 53)%Z →
  ∃ train test,
    (train_test_split df test_size_0_21 random_state w).1 = Return (train, test) ∧
    len train + len test = len df ∧
    Z.of_nat (len test) =
      Float64.ceil (Float64.mul test_size_0_21 (Float64.of_int (Z.of_nat (len df)))) ∧
    (Z.abs (Z.of_nat (len train) - round_half_even (79 * Z.of_nat (len df)) 100) ≤ 1)%Z ∧
    (Z.abs (Z.of_nat (len test) - round_half_even (21 * Z.of_nat (len df)) 100) ≤ 1)%Z ∧
    ((Z.of_nat (len df) < 2 ^ 48)%Z →
     Z.of_nat (len test) = ceil_div (21 * Z.of_nat (len df)) 100 ∧
     Z.of_nat (len train) = (79 * Z.of_nat (len df) / 100)%Z).
Proof.
  intros Hn.
  destruct (validate_shuffle_split_0_21 (len df) Hn)
    as (n_test & Hceil & Hv & Hrange & Htest & Htrain).
  rewrite (train_test_split_Return _ _ _ _ _ _ Hv). simpl.
  eexists _, _. split; [done|].
  pose proof (shuffled_perm random_state (len df) w) as Hperm.
  apply Permutation_length in Hperm. rewrite length_seq in Hperm.
  rewrite !len_iloc, !length_take, length_drop, Hperm.
  specialize (Htest _ (round_half_even_nearest (21 * Z.of_nat (len df)) 100 ltac:(lia))).
  specialize (Htrain _ (round_half_even_nearest (79 * Z.of_nat (len df)) 100 ltac:(lia))).
  rewrite <- Hceil.
  split; [lia|]. split; [lia|]. split; [lia|]. split; [lia|].
  intros Hsmall. rewrite Hceil, n_test_0_21_exact in * by lia.
  unfold ceil_div in *.
  pose proof (Z.div_mod (- (21 * Z.of_nat (len df))) 100 ltac:(lia)).
  pose proof (Z.mod_pos_bound (- (21 * Z.of_nat (len df))) 100 ltac:(lia)).
  pose proof (Z.div_mod (79 * Z.of_nat (len df)) 100 ltac:(lia)).
  pose proof (Z.mod_pos_bound (79 * Z.of_nat (len df)) 100 ltac:(lia)).
  lia.
Qed.

(** C4.  Whenever [train_test_split] returns, its two parts are selections
    of the frame at two lists of positions that together hold every
    position exactly once: no position is in both, none is missing.  The
    rows of the parts, labels and cells, are the rows of the frame, and the
    columns keep their names.  It fails only where the size check does, and
    then leaves the world alone. *)
Theorem train_test_split_partition (df : DataFrame) (test_size : Float64.t)
    (random_state : option Z) (w : World) :
  match train_test_split df test_size random_state w with
  | (Return (train, test), _) =>
      ∃ ind_train ind_test,
        train = iloc ind_train df ∧ test = iloc ind_test df ∧
        ind_train ++ ind_test ≡ₚ seq 0 (len df) ∧
        NoDup (ind_train ++ ind_test) ∧
        (∀ i, i ∈ ind_train → i ∉ ind_test) ∧
        (∀ i, i < len df ↔ i ∈ ind_train ∨ i ∈ ind_test) ∧
        rows train ++ rows test ≡ₚ rows df ∧
        len train + len test = len df ∧
        column_names train = column_names df ∧
        column_names test = column_names df
  | (Raise e, w') =>
      validate_shuffle_split (len df) test_size = Raise e ∧ w' = w
  end.
Proof.
  destruct (validate_shuffle_split (len df) test_size) as [[n_train n_test]|e] eqn:Hv.
  2:{ by rewrite (train_test_split_Raise _ _ _ _ _ Hv). }
  rewrite (train_test_split_Return _ _ _ _ _ _ Hv).
  apply validate_shuffle_split_Return in Hv as [-> _].
  pose proof (shuffled_perm random_state (len df) w) as Hperm.
  set (p := shuffled random_state (len df) w) in *.
  assert (Hlen : length p = len df)
    by (by rewrite (Permutation_length Hperm), length_seq).
  set (ind_test := take (Z.to_nat n_test) p).
  set (ind_train := take (Z.to_nat (Z.of_nat (len df) - n_test)) (drop (Z.to_nat n_test) p)).
  assert (Hcut : ind_test ++ ind_train = p).
  { unfold ind_test, ind_train. rewrite <- Hlen. apply take_drop_sizes. }
  assert (Hall : ind_train ++ ind_test ≡ₚ seq 0 (len df)).
  { by rewrite Permutation_app_comm, Hcut. }
  assert (Hnodup : NoDup (ind_train ++ ind_test)).
  { rewrite Hall. apply NoDup_seq. }
  exists ind_train, ind_test.
  split; [done|]. split; [done|]. split; [done|]. split; [done|].
  split. { apply NoDup_app in Hnodup as (_ & Hdisj & _). exact Hdisj. }
  split. { intros i. rewrite <- elem_of_app, Hall, elem_of_seq. lia. }
  split. { rewrite !rows_iloc, <- map_app. unfold rows. by apply Permutation_map. }
  split. { rewrite !len_iloc, <- length_app. by rewrite Hall, length_seq. }
  by rewrite !column_names_iloc.
Qed.

(** C5.  With an integer seed the split is a function of the frame, the
    fraction and the seed alone: from any two worlds it gives the same
    result, it leaves the world (numpy's global generator included) as it
    was, and so a second call after the first returns the same two
    parts. *)
Theorem train_test_split_deterministic (df : DataFrame) (test_size : Float64.t)
    (seed : Z) (w1 w2 : World) :
  (train_test_split df test_size (Some seed) w1).1 =
    (train_test_split df test_size (Some seed) w2).1 ∧
  (train_test_split df test_size (Some seed) w1).2 = w1 ∧
  (train_test_split df test_size (Some seed) ≫= λ first,
   train_test_split df test_size (Some seed) ≫= λ second,
   mret (first, second)) w1 =
    (match (train_test_split df test_size (Some seed) w1).1 with
     | Return parts => Return (parts, parts)
     | Raise e => Raise e
     end, w1).
Proof.
  destruct (validate_shuffle_split (len df) test_size) as [[n_train n_test]|e] eqn:Hv.
  - unfold mbind, M_bind.
    by rewrite !(train_test_split_Return _ _ _ _ _ _ Hv).
  - unfold mbind, M_bind.
    by rewrite !(train_test_split_Raise _ _ _ _ _ Hv).
Qed.

End Splitter.

(** A frame of 100 rows splits 79 to 21, as in the script's own run. *)
Example train_test_split_100_rows :
  match (train_test_split (preprocessed (spam_frame 100)) test_size_0_21
           (Some 42%Z) fresh_world).1 with
  | Return (train, test) => len train = 79 ∧ len test = 21
  | Raise _ => False
  end.
Proof. vm_compute. split; reflexivity. Qed.

Lemma train_test_split_sizes_witness :
  ∃ train test,
    (train_test_split (preprocessed (spam_frame 100)) test_size_0_21
       (Some 42%Z) fresh_world).1 = Return (train, test) ∧
    len train + len test = 100.
Proof.
  destruct (train_test_split_sizes (preprocessed (spam_frame 100)) (Some 42%Z)
              fresh_world) as (train & test & Hrun & Hsum & _).
  - vm_compute. split; [discriminate|reflexivity].
  - exists train, test. split; [exact Hrun|exact Hsum].
Defined.

(** C3 fails on a frame of one row: [round(0.79)] is 1 and [round(0.21)]
    is 0, but the split raises and produces no part at all. *)
Lemma train_test_split_one_row_raises :
  len (preprocessed (spam_frame 1)) = 1 ∧
  round_half_even (79 * 1) 100 = 1%Z ∧
  round_half_even (21 * 1) 100 = 0%Z ∧
  train_test_split (preprocessed (spam_frame 1)) test_size_0_21 (Some 42%Z)
    fresh_world =
  (Raise (ValueError "the resulting train set will be empty"), fresh_world).
Proof. repeat split. Qed.

(** ** The whole run *)

Section Run.
Context `{!NumpyRandom}.
Variable env : Env.

Lemma main_load_Raise w e :
  csv_resource env source_url = inl e →
  main env w =
    (Raise e,
     handled "Data ingestion failed: %s" e (handled "Error loading data: %s" e w)).
Proof.
  intros Hcsv. unfold main. apply try_except_log_handled.
  cbv zeta. by rewrite (bind_Raise _ _ _ _ _ (load_data_Raise env _ _ w Hcsv)).
Qed.

Lemma main_preprocess_Raise w df e :
  csv_resource env source_url = inr df →
  drop_columns placeholders df = Raise e →
  main env w =
    (Raise e,
     handled "Data ingestion failed: %s" e
       (handled "Error during preprocessing: %s" e
          (emit DEBUG "Data loaded from %s" [ArgStr source_url] w))).
Proof.
  intros Hcsv Hdrop. unfold main. apply try_except_log_handled.
  cbv zeta. rewrite (bind_Return _ _ _ _ _ (load_data_Return env _ _ w Hcsv)).
  apply bind_Raise. unfold preprocess_data. apply try_except_log_handled.
  unfold mbind, M_bind, of_result.
  change ["Unnamed: 2"; "Unnamed: 3"; "Unnamed: 4"] with placeholders.
  by rewrite Hdrop.
Qed.

Lemma main_split_Raise w df e :
  csv_resource env source_url = inr df →
  placeholders ⊆ column_names df →
  validate_shuffle_split (len (preprocessed df)) test_size_0_21 = Raise e →
  main env w =
    (Raise e,
     handled "Data ingestion failed: %s" e
       (emit DEBUG "Data preprocessing completed" []
          (emit DEBUG "Data loaded from %s" [ArgStr source_url] w))).
Proof.
  intros Hcsv Hsub Hv. unfold main. apply try_except_log_handled.
  cbv zeta. rewrite (bind_Return _ _ _ _ _ (load_data_Return env _ _ w Hcsv)).
  rewrite (bind_Return _ _ _ _ _ (preprocess_data_Return df _ Hsub)).
  apply bind_Raise. by apply train_test_split_Raise.
Qed.

Lemma main_Return w df n_train n_test :
  csv_resource env source_url = inr df →
  placeholders ⊆ column_names df →
  validate_shuffle_split (len (preprocessed df)) test_size_0_21 =
    Return (n_train, n_test) →
  makedirs_error env "data/raw" = None →
  to_csv_outcome env "data/raw/train.csv" = Written →
  to_csv_outcome env "data/raw/test.csv" = Written →
  let indices := (permutation (RandomState 42) (len (preprocessed df))).1 in
  let train_df :=
    iloc (take (Z.to_nat n_train) (drop (Z.to_nat n_test) indices)) (preprocessed df) in
  let test_df := iloc (take (Z.to_nat n_test) indices) (preprocessed df) in
  main env w =
    (Return (),
     emit DEBUG "Data ingestion pipeline completed successfully" []
       (emit DEBUG "Train and test data saved to %s" [ArgStr "data/raw"]
          (store "data/raw/test.csv" (to_csv_text test_df)
             (store "data/raw/train.csv" (to_csv_text train_df)
                (mkdir "data/raw"
                   (emit DEBUG "Data preprocessing completed" []
                      (emit DEBUG "Data loaded from %s" [ArgStr source_url] w))))))).
Proof.
  intros Hcsv Hsub Hv Hmk Htrain Htest indices train_df test_df.
  unfold main. apply try_except_log_Return. cbv zeta.
  rewrite (bind_Return _ _ _ _ _ (load_data_Return env _ _ w Hcsv)).
  rewrite (bind_Return _ _ _ _ _ (preprocess_data_Return df _ Hsub)).
  rewrite (bind_Return _ _ _ _ _
             (train_test_split_Return _ _ (Some 42%Z) _ _ _ Hv)).
  simpl. unfold mbind at 1, M_bind at 1.
  by rewrite (save_data_Return env _ _ _ Hmk Htrain Htest).
Qed.

(** Two runs against the same outside, from whatever worlds: when one
    completes so does the other, and both leave the same two files. *)
Lemma main_writes_same_files (w1 w2 : World) :
  (main env w1).1 = (main env w2).1 ∧
  ((main env w1).1 = Return () →
   files (main env w1).2 !! "data/raw/train.csv" =
     files (main env w2).2 !! "data/raw/train.csv" ∧
   files (main env w1).2 !! "data/raw/test.csv" =
     files (main env w2).2 !! "data/raw/test.csv").
Proof.
  destruct (csv_resource env source_url) as [e|df] eqn:Hcsv.
  { rewrite !(main_load_Raise _ e Hcsv). done. }
  destruct (drop_columns placeholders df) as [d|e] eqn:Hdrop.
  2:{ rewrite !(main_preprocess_Raise _ df e Hcsv Hdrop). done. }
  assert (Hsub : placeholders ⊆ column_names df).
  { destruct (decide (placeholders ⊆ column_names df)) as [|Hno]; [done|].
    destruct (drop_columns_Raise _ _ Hno) as [_ Hr]. congruence. }
  destruct (validate_shuffle_split (len (preprocessed df)) test_size_0_21)
    as [[n_train n_test]|e] eqn:Hv.
  2:{ rewrite !(main_split_Raise _ df e Hcsv Hsub Hv). done. }
  assert (Hmain : ∀ w, ∃ r w',
    main env w = (r, w') ∧
    (r = Return () →
     files w' !! "data/raw/train.csv" =
       Some (to_csv_text
         (iloc (take (Z.to_nat n_train) (drop (Z.to_nat n_test)
            (permutation (RandomState 42) (len (preprocessed df))).1)) (preprocessed df))) ∧
     files w' !! "data/raw/test.csv" =
       Some (to_csv_text
         (iloc (take (Z.to_nat n_test)
            (permutation (RandomState 42) (len (preprocessed df))).1) (preprocessed df)))) ∧
    (∀ v, (main env v).1 = r)).
  { intros w.
    destruct (makedirs_error env "data/raw") as [e|] eqn:Hmk;
      [|destruct (to_csv_outcome env "data/raw/train.csv") as [|e|e partial] eqn:Htrain;
        [destruct (to_csv_outcome env "data/raw/test.csv") as [|e|e partial] eqn:Htest|..]].
    2:{ eexists _, _. split; [apply (main_Return w df _ _ Hcsv Hsub Hv Hmk Htrain Htest)|].
        split; [|intros v; by rewrite (main_Return v df _ _ Hcsv Hsub Hv Hmk Htrain Htest)].
        intros _. simpl. rewrite lookup_insert_ne by done.
        by rewrite !lookup_insert_eq. }
    all: assert (Hfail : ∀ v, (main env v).1 = Raise e);
      [intros v; unfold main, try_except_log; cbv zeta;
       rewrite (bind_Return _ _ _ _ _ (load_data_Return env _ _ v Hcsv));
       rewrite (bind_Return _ _ _ _ _ (preprocess_data_Return df _ Hsub));
       rewrite (bind_Return _ _ _ _ _
                  (train_test_split_Return _ _ (Some 42%Z) _ _ _ Hv));
       simpl; unfold mbind at 1, M_bind at 1
      |exists (Raise e), (main env w).2; split;
         [rewrite <- (Hfail w); by destruct (main env w)|split; [done|exact Hfail]]].
    - rewrite (save_data_makedirs_Raise env _ _ e _ Hmk).
      by destruct (isinstance_Exception e).
    - rewrite (save_data_test_Raise env _ _ (Refused e) e _ Hmk Htrain Htest eq_refl).
      by destruct (isinstance_Exception e).
    - rewrite (save_data_test_Raise env _ _ (Interrupted e partial) e _ Hmk Htrain Htest eq_refl).
      by destruct (isinstance_Exception e).
    - rewrite (save_data_train_Raise env _ _ (Refused e) e _ Hmk Htrain eq_refl).
      by destruct (isinstance_Exception e).
    - rewrite (save_data_train_Raise env _ _ (Interrupted e partial) e _ Hmk Htrain eq_refl).
      by destruct (isinstance_Exception e). }
  destruct (Hmain w1) as (r1 & w1' & Hrun1 & Hfiles1 & Hall1).
  destruct (Hmain w2) as (r2 & w2' & Hrun2 & Hfiles2 & Hall2).
  rewrite Hrun1, Hrun2. simpl.
  assert (r1 = r2) as <-.
  { rewrite <- (Hall1 w2). by rewrite Hrun2. }
  split; [done|]. intros Hr.
  destruct (Hfiles1 Hr) as [-> ->]. destruct (Hfiles2 Hr) as [-> ->]. done.
Qed.

(** C7.  When a stage before [save_data] raises (the CSV source cannot be
    loaded or parsed, the preprocessing fails, or the split fails), [main]
    raises the same exception and the file system is as it was: no
    directory made, no file written.  For a failed load the log gains the
    loader's error record and the run's, and nothing else. *)
Theorem main_aborts_before_saving (w : World) (e : exn) :
  fails_before_save env e →
  (main env w).1 = Raise e ∧
  files (main env w).2 = files w ∧
  dirs (main env w).2 = dirs w ∧
  (csv_resource env source_url = inl e →
   log (main env w).2 =
     log w ++
       if isinstance_Exception e
       then [mkLogRecord ERROR "Error loading data: %s" [ArgExn e];
             mkLogRecord ERROR "Data ingestion failed: %s" [ArgExn e]]
       else []).
Proof.
  intros [Hcsv|df Hcsv Hdrop|df Hcsv Hsub Hv].
  - rewrite (main_load_Raise w e Hcsv). simpl.
    rewrite !files_handled, !dirs_handled. repeat split.
    intros _. unfold handled. destruct (isinstance_Exception e); simpl.
    + by rewrite <- app_assoc.
    + by rewrite app_nil_r.
  - rewrite (main_preprocess_Raise w df e Hcsv Hdrop). simpl.
    rewrite !files_handled, !dirs_handled. repeat split. congruence.
  - rewrite (main_split_Raise w df e Hcsv Hsub Hv). simpl.
    rewrite !files_handled, !dirs_handled. repeat split. congruence.
Qed.

(** C8, amended.  Whatever raises inside a stage (opening or parsing the
    configuration, reading the CSV source, dropping the columns, making
    the directory, writing either file), the stage raises the same
    exception and returns no value.  When the exception is an [Exception],
    the stage first appends one error record carrying it; when it is not
    (a [KeyboardInterrupt]), the handler does not apply and nothing is
    logged. *)
Theorem stages_log_and_reraise (w : World) (e : exn) :
  let after msg w' :=
    if isinstance_Exception e then emit ERROR msg [ArgExn e] w' else w' in
  (∀ path, yaml_document env path = inl e →
     load_params env path w = (Raise e, after "Error loading parameters: %s" w)) ∧
  (∀ url, csv_resource env url = inl e →
     load_data env url w = (Raise e, after "Error loading data: %s" w)) ∧
  (∀ df, drop_columns placeholders df = Raise e →
     preprocess_data df w = (Raise e, after "Error during preprocessing: %s" w)) ∧
  (∀ train_df test_df,
     makedirs_error env "data/raw" = Some e →
     save_data env train_df test_df w =
       (Raise e, after "Error saving data: %s" (partly_made env "data/raw" w))) ∧
  (∀ train_df test_df o,
     makedirs_error env "data/raw" = None →
     to_csv_outcome env "data/raw/train.csv" = o →
     write_error o = Some e →
     save_data env train_df test_df w =
       (Raise e,
        after "Error saving data: %s"
          (after_failed_write "data/raw/train.csv" o (mkdir "data/raw" w)))) ∧
  (∀ train_df test_df o,
     makedirs_error env "data/raw" = None →
     to_csv_outcome env "data/raw/train.csv" = Written →
     to_csv_outcome env "data/raw/test.csv" = o →
     write_error o = Some e →
     save_data env train_df test_df w =
       (Raise e,
        after "Error saving data: %s"
          (after_failed_write "data/raw/test.csv" o
             (store "data/raw/train.csv" (to_csv_text train_df)
                (mkdir "data/raw" w))))).
Proof.
  intros after. change after with (λ msg w', handled msg e w'). cbv beta.
  split; [intros path; apply load_params_Raise|].
  split; [intros url; apply load_data_Raise|].
  split.
  { intros df Hdrop. unfold preprocess_data. apply try_except_log_handled.
    unfold mbind, M_bind, of_result.
    change ["Unnamed: 2"; "Unnamed: 3"; "Unnamed: 4"] with placeholders.
    by rewrite Hdrop. }
  split; [intros ??; apply save_data_makedirs_Raise|].
  split; [intros ???; apply save_data_train_Raise|].
  intros ???; apply save_data_test_Raise.
Qed.

(** C10.  With the directory in place, [save_data] writes [train.csv]
    first.  If that write fails, [save_data] raises and [test.csv] is as
    it was before the call: its write is not attempted.  If it goes
    through and the write of [test.csv] fails, [save_data] raises with
    [train.csv] stored and left there; when the failed write was refused
    outright, [test.csv] is as it was before the call, so only [train.csv]
    has been written. *)
Theorem save_data_not_atomic (train_df test_df : DataFrame) (w : World)
    (o : write_outcome) (e : exn) :
  makedirs_error env "data/raw" = None →
  write_error o = Some e →
  (to_csv_outcome env "data/raw/train.csv" = o →
   (save_data env train_df test_df w).1 = Raise e ∧
   files (save_data env train_df test_df w).2 !! "data/raw/test.csv" =
     files w !! "data/raw/test.csv") ∧
  (to_csv_outcome env "data/raw/train.csv" = Written →
   to_csv_outcome env "data/raw/test.csv" = o →
   (save_data env train_df test_df w).1 = Raise e ∧
   files (save_data env train_df test_df w).2 !! "data/raw/train.csv" =
     Some (to_csv_text train_df) ∧
   (o = Refused e →
    files (save_data env train_df test_df w).2 =
      <["data/raw/train.csv" := to_csv_text train_df]> (files w) ∧
    files (save_data env train_df test_df w).2 !! "data/raw/test.csv" =
      files w !! "data/raw/test.csv")).
Proof.
  intros Hmk Herr. split.
  - intros Htrain.
    rewrite (save_data_train_Raise env _ _ _ _ w Hmk Htrain Herr). simpl.
    rewrite files_handled. split; [done|].
    by rewrite files_after_failed_write_ne.
  - intros Htrain Htest.
    rewrite (save_data_test_Raise env _ _ _ _ w Hmk Htrain Htest Herr). simpl.
    rewrite files_handled. split; [done|]. split.
    + rewrite files_after_failed_write_ne by done. simpl.
      by rewrite lookup_insert_eq.
    + intros ->. simpl. split; [done|]. by rewrite lookup_insert_ne.
Qed.

(** What [main] does once the source is loaded and preprocessed: it splits
    with the fraction 0.21 and the seed 42, saves the two parts, and ends
    as the save ends. *)
Lemma main_split_step w df :
  csv_resource env source_url = inr df →
  placeholders ⊆ column_names df →
  main env w =
    match train_test_split (preprocessed df) test_size_0_21 (Some 42%Z)
            (emit DEBUG "Data preprocessing completed" []
               (emit DEBUG "Data loaded from %s" [ArgStr source_url] w)) with
    | (Return parts, w') => main_after_save (save_data env parts.1 parts.2 w')
    | (Raise e, w') => (Raise e, handled "Data ingestion failed: %s" e w')
    end.
Proof.
  intros Hcsv Hsub. unfold main, try_except_log. cbv zeta.
  rewrite (bind_Return _ _ _ _ _ (load_data_Return env _ _ w Hcsv)).
  rewrite (bind_Return _ _ _ _ _ (preprocess_data_Return df _ Hsub)).
  unfold mbind at 1, M_bind at 1.
  destruct (train_test_split _ _ _ _) as [[[train test]|e] w3]; cbn [fst snd].
  - unfold mbind at 1, M_bind at 1.
    destruct (save_data env train test w3) as [[[]|e] w4]; simpl; [done|].
    unfold handled. by destruct (isinstance_Exception e).
  - unfold handled. by destruct (isinstance_Exception e).
Qed.

(** Once the source is loaded, the first record a run logs is the
    loader's. *)
Lemma main_logs_load_first w df :
  csv_resource env source_url = inr df →
  (log w ++ [mkLogRecord DEBUG "Data loaded from %s" [ArgStr source_url]])
    `prefix_of` log (main env w).2.
Proof.
  intros Hcsv. unfold main, try_except_log. cbv zeta.
  rewrite (bind_Return _ _ _ _ _ (load_data_Return env _ _ w Hcsv)).
  set (w1 := emit DEBUG "Data loaded from %s" [ArgStr source_url] w).
  change (log w ++ _) with (log w1).
  assert (Hrest : ∀ (m : M unit), (∀ v, log v `prefix_of` log (m v).2) →
    log w1 `prefix_of`
      log (match m w1 with
           | (Return a, w') => (Return a, w')
           | (Raise e, w') =>
               if isinstance_Exception e
               then (logger_error "Data ingestion failed: %s" [ArgExn e];; raise e) w'
               else (Raise e, w')
           end).2).
  { intros m Hm. specialize (Hm w1). destruct (m w1) as [[a|e] w']; [done|].
    destruct (isinstance_Exception e); [|done]. simpl in *. by apply prefix_app_r. }
  apply Hrest. intros v.
  assert (Hbind : ∀ {A B} (m : M A) (k : A → M B) u,
            log u `prefix_of` log (m u).2 →
            (∀ a u', log u' `prefix_of` log (k a u').2) →
            log u `prefix_of` log ((m ≫= k) u).2).
  { intros A B m k u Hm Hk. unfold mbind, M_bind.
    destruct (m u) as [[a|e] u']; simpl in *; [|done].
    etrans; [exact Hm|apply Hk]. }
  apply Hbind.
  { destruct (decide (placeholders ⊆ column_names df)) as [Hsub|Hsub].
    - rewrite (preprocess_data_Return df v Hsub). simpl. by apply prefix_app_r.
    - rewrite (preprocess_data_Raise df v Hsub). simpl. by apply prefix_app_r. }
  intros d u. apply Hbind.
  { unfold train_test_split, mbind, M_bind, of_result.
    by destruct (validate_shuffle_split _ _) as [[]|]. }
  intros parts u'. apply Hbind.
  { unfold save_data, try_except_log, mbind, M_bind, os_makedirs, to_csv.
    destruct (makedirs_error env _) as [e|]; simpl.
    { destruct (isinstance_Exception e); simpl; [by apply prefix_app_r|done]. }
    destruct (to_csv_outcome env (os_path_join _ "train.csv")) as [|e|e c]; simpl.
    - destruct (to_csv_outcome env (os_path_join _ "test.csv")) as [|e|e c]; simpl.
      + by apply prefix_app_r.
      + destruct (isinstance_Exception e); simpl; [by apply prefix_app_r|done].
      + destruct (isinstance_Exception e); simpl; [by apply prefix_app_r|done].
    - destruct (isinstance_Exception e); simpl; [by apply prefix_app_r|done].
    - destruct (isinstance_Exception e); simpl; [by apply prefix_app_r|done]. }
  intros [] u''. simpl. by apply prefix_app_r.
Qed.

(** C2, amended.  [main] does not read the configuration: whatever
    documents the configuration paths hold or lack, it runs the same and
    leaves the same world, so a missing configuration file does not abort
    it.  Its first stage is the data loader: when the source cannot be
    loaded it raises without anything else having happened, and when it
    can the first record logged is the loader's.  The split it then makes
    is the one with the fraction 0.21 and the seed 42, whose parts it
    saves.  [load_params], called by itself, returns the mapping of the
    document and logs at debug level; for a path whose file is missing it
    logs an error record carrying the [FileNotFoundError] that names the
    path and re-raises it, which, uncaught, ends the process with a
    non-zero status. *)
Theorem main_ignores_configuration (w : World) :
  (∀ docs, main (with_yaml_document docs env) w = main env w) ∧
  (∀ e, csv_resource env source_url = inl e →
     main env w =
       (Raise e,
        handled "Data ingestion failed: %s" e
          (handled "Error loading data: %s" e w))) ∧
  (∀ df, csv_resource env source_url = inr df →
     (log w ++ [mkLogRecord DEBUG "Data loaded from %s" [ArgStr source_url]])
       `prefix_of` log (main env w).2) ∧
  (∀ df, csv_resource env source_url = inr df →
     placeholders ⊆ column_names df →
     main env w =
       match train_test_split (preprocessed df) test_size_0_21 (Some 42%Z)
               (emit DEBUG "Data preprocessing completed" []
                  (emit DEBUG "Data loaded from %s" [ArgStr source_url] w)) with
       | (Return parts, w') => main_after_save (save_data env parts.1 parts.2 w')
       | (Raise e, w') => (Raise e, handled "Data ingestion failed: %s" e w')
       end) ∧
  (∀ path params, yaml_document env path = inr params →
     load_params env path w =
       (Return params, emit DEBUG "Parameters loaded from %s" [ArgStr path] w)) ∧
  (∀ path, yaml_document env path = inl (FileNotFoundError path) →
     load_params env path w =
       (Raise (FileNotFoundError path),
        emit ERROR "Error loading parameters: %s"
             [ArgExn (FileNotFoundError path)] w) ∧
     exit_status (load_params env path w).1 ≠ 0%Z).
Proof.
  split; [done|].
  split; [intros e; apply main_load_Raise|].
  split; [intros df; apply main_logs_load_first|].
  split; [intros df; apply main_split_step|].
  split; [intros path params; apply load_params_Return|].
  intros path Hdoc. rewrite (load_params_Raise env _ _ w Hdoc). done.
Qed.

End Run.

(** *** The run on sample inputs *)

(** An unparsable source: [main] raises the [ParserError] and the disk
    stays empty. *)
Lemma main_aborts_before_saving_witness :
  (main (env_failing_source (ParserError "Error tokenizing data")) fresh_world).1 =
    Raise (ParserError "Error tokenizing data") ∧
  files (main (env_failing_source (ParserError "Error tokenizing data")) fresh_world).2 = ∅.
Proof.
  destruct (main_aborts_before_saving
              (env_failing_source (ParserError "Error tokenizing data"))
              fresh_world (ParserError "Error tokenizing data"))
    as (Hraise & Hfiles & _).
  - apply load_fails. reflexivity.
  - split; [exact Hraise|exact Hfiles].
Defined.

(** A source without the placeholder columns stops the run before any
    write. *)
Example main_aborts_on_missing_placeholders :
  (main (env_serving {| index := [0; 1];
                        columns := [("v1", [Str "ham"; Str "spam"]);
                                    ("v2", [Str "hi"; Str "win"])] |})
        fresh_world).1 = Raise (KeyError placeholders) ∧
  files (main (env_serving {| index := [0; 1];
                              columns := [("v1", [Str "ham"; Str "spam"]);
                                          ("v2", [Str "hi"; Str "win"])] |})
              fresh_world).2 = ∅.
Proof. split; reflexivity. Qed.

(** The write of [test.csv] refused on an empty disk: [train.csv] is there,
    [test.csv] is not. *)
Lemma save_data_not_atomic_witness :
  (save_data (env_test_csv_refused (spam_frame 3))
     (iloc [2; 0] (preprocessed (spam_frame 3)))
     (iloc [1] (preprocessed (spam_frame 3))) fresh_world).1 =
    Raise (OSError "Permission denied") ∧
  files (save_data (env_test_csv_refused (spam_frame 3))
           (iloc [2; 0] (preprocessed (spam_frame 3)))
           (iloc [1] (preprocessed (spam_frame 3))) fresh_world).2
    !! "data/raw/train.csv" =
    Some {| header := ["target"; "text"];
            records := [[Str "ham"; Num 2]; [Str "ham"; Num 0]] |} ∧
  files (save_data (env_test_csv_refused (spam_frame 3))
           (iloc [2; 0] (preprocessed (spam_frame 3)))
           (iloc [1] (preprocessed (spam_frame 3))) fresh_world).2
    !! "data/raw/test.csv" = None.
Proof.
  destruct (save_data_not_atomic (env_test_csv_refused (spam_frame 3))
              (iloc [2; 0] (preprocessed (spam_frame 3)))
              (iloc [1] (preprocessed (spam_frame 3)))
              fresh_world (Refused (OSError "Permission denied"))
              (OSError "Permission denied"))
    as [_ Htest].
  - reflexivity.
  - reflexivity.
  - destruct Htest as (Hraise & Htrain & Htest); [reflexivity|reflexivity|].
    destruct Htest as [_ Htest]; [reflexivity|].
    split; [exact Hraise|]. split; [exact Htrain|exact Htest].
Defined.

(** An unreachable source: the loader logs the [URLError] and re-raises. *)
Lemma stages_log_and_reraise_witness :
  load_data (env_failing_source (URLError "Name or service not known"))
    source_url fresh_world =
  (Raise (URLError "Name or service not known"),
   emit ERROR "Error loading data: %s"
        [ArgExn (URLError "Name or service not known")] fresh_world).
Proof.
  destruct (stages_log_and_reraise
              (env_failing_source (URLError "Name or service not known"))
              fresh_world (URLError "Name or service not known"))
    as (_ & Hload & _).
  apply Hload. reflexivity.
Defined.

(** C8 fails for an exception outside [Exception]: a [KeyboardInterrupt]
    raised while reading the source leaves [load_data] without a log record
    (the log of the fresh world is empty and stays so). *)
Lemma load_data_KeyboardInterrupt_not_logged :
  isinstance_Exception KeyboardInterrupt = false ∧
  csv_resource (env_failing_source KeyboardInterrupt) source_url =
    inl KeyboardInterrupt ∧
  load_data (env_failing_source KeyboardInterrupt) source_url fresh_world =
    (Raise KeyboardInterrupt, fresh_world) ∧
  log (load_data (env_failing_source KeyboardInterrupt) source_url fresh_world).2 = [].
Proof. repeat split. Qed.

(** Without a configuration file, [load_params] alone fails and logs. *)
Lemma main_ignores_configuration_witness :
  load_params (env_serving (spam_frame 5)) "params.yaml" fresh_world =
    (Raise (FileNotFoundError "params.yaml"),
     emit ERROR "Error loading parameters: %s"
          [ArgExn (FileNotFoundError "params.yaml")] fresh_world) ∧
  main (with_yaml_document (λ _, inr ∅) (env_serving (spam_frame 5))) fresh_world =
    main (env_serving (spam_frame 5)) fresh_world.
Proof.
  destruct (main_ignores_configuration (env_serving (spam_frame 5)) fresh_world)
    as (Hsame & _ & _ & _ & _ & Hmissing).
  split; [by apply Hmissing|apply Hsame].
Defined.

(** C2 fails where no configuration file exists: the script runs to the
    end, exits with status 0, and logs four debug records and no error. *)
Lemma script_completes_without_configuration :
  yaml_document (env_serving (spam_frame 5)) "params.yaml" =
    inl (FileNotFoundError "params.yaml") ∧
  (script (env_serving (spam_frame 5)) fresh_world).1 = Return () ∧
  exit_status (script (env_serving (spam_frame 5)) fresh_world).1 = 0%Z ∧
  (main (env_serving (spam_frame 5)) fresh_world).1 = Return () ∧
  map levelname (log (main (env_serving (spam_frame 5)) fresh_world).2) =
    [DEBUG; DEBUG; DEBUG; DEBUG] ∧
  map msg (log (main (env_serving (spam_frame 5)) fresh_world).2) =
    ["Data loaded from %s"; "Data preprocessing completed";
     "Train and test data saved to %s";
     "Data ingestion pipeline completed successfully"].
Proof. repeat split. Qed.

(** * Further properties of the stages *)

(** ** What the world keeps *)

Section Frames.
Context `{!NumpyRandom}.
Variable env : Env.

Lemma log_handled msg e w :
  log (handled msg e w) =
    log w ++ if isinstance_Exception e
             then [mkLogRecord ERROR msg [ArgExn e]] else [].
Proof.
  unfold handled. destruct (isinstance_Exception e); simpl; [done|].
  by rewrite app_nil_r.
Qed.

Lemma log_prefix_handled msg e w : log w `prefix_of` log (handled msg e w).
Proof. rewrite log_handled. by apply prefix_app_r. Qed.

Lemma dirs_after_failed_write path o w :
  dirs (after_failed_write path o w) = dirs w.
Proof. by destruct o. Qed.

Lemma log_after_failed_write path o w :
  log (after_failed_write path o w) = log w.
Proof. by destruct o. Qed.

Lemma np_random_after_failed_write path o w :
  np_random (after_failed_write path o w) = np_random w.
Proof. by destruct o. Qed.

Lemma ancestors_data_raw : ancestors "data/raw" = ["data"].
Proof. reflexivity. Qed.

Lemma dirs_mkdir_data_raw w :
  dirs (mkdir "data/raw" w) = {["data/raw"]} ∪ {["data"]} ∪ dirs w.
Proof.
  unfold mkdir. cbn [dirs]. rewrite ancestors_data_raw. set_solver.
Qed.

(** A failed [os.makedirs("data/raw")] has made [data] or nothing. *)
Lemma dirs_partly_made_data_raw w :
  dirs w ⊆ dirs (partly_made env "data/raw" w) ∧
  dirs (partly_made env "data/raw" w) ⊆ {["data"]} ∪ dirs w.
Proof.
  unfold partly_made. cbn [dirs]. rewrite ancestors_data_raw.
  split; [apply union_subseteq_r|]. apply union_mono_r.
  intros x Hx. apply elem_of_list_to_set, subseteq_take in Hx.
  apply list_elem_of_singleton in Hx as ->. by apply elem_of_singleton.
Qed.

(** X1.  The parameter loader, the data loader and the preprocessor work in
    memory: whatever their outcome, the files, the directories and numpy's
    global generator are as before, and the log only gains records. *)
Theorem stages_leave_disk_alone (w : World) :
  (∀ path,
     files (load_params env path w).2 = files w ∧
     dirs (load_params env path w).2 = dirs w ∧
     np_random (load_params env path w).2 = np_random w ∧
     log w `prefix_of` log (load_params env path w).2) ∧
  (∀ url,
     files (load_data env url w).2 = files w ∧
     dirs (load_data env url w).2 = dirs w ∧
     np_random (load_data env url w).2 = np_random w ∧
     log w `prefix_of` log (load_data env url w).2) ∧
  (∀ df,
     files (preprocess_data df w).2 = files w ∧
     dirs (preprocess_data df w).2 = dirs w ∧
     np_random (preprocess_data df w).2 = np_random w ∧
     log w `prefix_of` log (preprocess_data df w).2).
Proof.
  split; [|split].
  - intros path. destruct (yaml_document env path) as [e|params] eqn:Hdoc.
    + rewrite (load_params_Raise env _ _ w Hdoc). simpl.
      rewrite files_handled, dirs_handled, np_random_handled.
      repeat split. apply log_prefix_handled.
    + rewrite (load_params_Return env _ _ w Hdoc). simpl.
      repeat split. by apply prefix_app_r.
  - intros url. destruct (csv_resource env url) as [e|df] eqn:Hcsv.
    + rewrite (load_data_Raise env _ _ w Hcsv). simpl.
      rewrite files_handled, dirs_handled, np_random_handled.
      repeat split. apply log_prefix_handled.
    + rewrite (load_data_Return env _ _ w Hcsv). simpl.
      repeat split. by apply prefix_app_r.
  - intros df. destruct (decide (placeholders ⊆ column_names df)) as [Hsub|Hsub].
    + rewrite (preprocess_data_Return df w Hsub). simpl.
      repeat split. by apply prefix_app_r.
    + rewrite (preprocess_data_Raise df w Hsub). simpl.
      repeat split. by apply prefix_app_r.
Qed.

End Frames.

(** ** The preprocessor, once more *)

Lemma filter_all {A} (P : A → Prop) `{∀ x, Decision (P x)} (l : list A) :
  Forall P l → filter P l = l.
Proof.
  induction 1 as [|x l Hx _ IH]; [done|].
  rewrite filter_cons_True by done. by rewrite IH.
Qed.

(** No column of a preprocessed frame is a placeholder, [v1] or [v2]. *)
Lemma column_names_preprocessed df c :
  c ∈ column_names (preprocessed df) →
  (c ∉ placeholders) ∧ c ≠ "v1" ∧ c ≠ "v2".
Proof.
  unfold column_names, preprocessed. simpl. intros Hc.
  apply list_elem_of_fmap in Hc as [[c1 vs1] [-> Hc]]. simpl.
  apply list_elem_of_fmap in Hc as [[c0 vs0] [[= -> ->] Hc]]. simpl.
  apply list_elem_of_filter in Hc as [Hc0 _]. simpl in Hc0.
  destruct (decide (c0 = "v1")) as [->|H1].
  { rewrite rename_label_v1. split; [by apply not_placeholder|done]. }
  destruct (decide (c0 = "v2")) as [->|H2].
  { rewrite rename_label_v2. split; [by apply not_placeholder|done]. }
  by rewrite rename_label_other.
Qed.

Section PreprocessorAgain.
Context `{!NumpyRandom}.

Lemma preprocess_data_Return_inv df w out w' :
  preprocess_data df w = (Return out, w') →
  placeholders ⊆ column_names df ∧ out = preprocessed df ∧
  w' = emit DEBUG "Data preprocessing completed" [] w.
Proof.
  destruct (decide (placeholders ⊆ column_names df)) as [Hsub|Hsub].
  - rewrite (preprocess_data_Return df w Hsub). by intros [= <- <-].
  - by rewrite (preprocess_data_Raise df w Hsub).
Qed.

(** X2.  Whatever [preprocess_data] returns has no column named
    [Unnamed: 2], [Unnamed: 3], [Unnamed: 4], [v1] or [v2] any more, also
    when the input carried such a name more than once; and it has no more
    columns than the input. *)
Theorem preprocess_data_output_names (df out : DataFrame) (w w' : World) :
  preprocess_data df w = (Return out, w') →
  Forall (λ c, (c ∉ placeholders) ∧ c ≠ "v1" ∧ c ≠ "v2") (column_names out) ∧
  (length (columns out) ≤ length (columns df))%nat.
Proof.
  intros Hrun. apply preprocess_data_Return_inv in Hrun as (_ & -> & _).
  split.
  - apply Forall_forall. intros c. apply column_names_preprocessed.
  - unfold preprocessed, without_placeholders. simpl.
    rewrite length_map. apply length_filter.
Qed.

(** X3.  The preprocessor cannot be applied twice: on a frame it returned,
    it raises the [KeyError] naming all three placeholder columns, logged
    at error level. *)
Theorem preprocess_data_twice_raises (df out : DataFrame) (w w' w2 : World) :
  preprocess_data df w = (Return out, w') →
  preprocess_data out w2 =
    (Raise (KeyError placeholders),
     emit ERROR "Error during preprocessing: %s"
          [ArgExn (KeyError placeholders)] w2).
Proof.
  intros Hrun. apply preprocess_data_Return_inv in Hrun as (_ & -> & _).
  assert (Hnone : Forall (λ l, l ∉ column_names (preprocessed df)) placeholders).
  { apply Forall_forall. intros l Hl Hin.
    by apply column_names_preprocessed in Hin as [Hno _]. }
  assert (Hsub : ¬ placeholders ⊆ column_names (preprocessed df)).
  { intros Hsub. apply Forall_inv in Hnone. apply Hnone, Hsub.
    apply list_elem_of_here. }
  rewrite (preprocess_data_Raise _ w2 Hsub).
  replace (not_found placeholders (preprocessed df)) with placeholders; [done|].
  unfold not_found. destruct (decide (NoDup _)); [|done].
  by rewrite (filter_all _ _ Hnone).
Qed.

End PreprocessorAgain.

Lemma preprocess_data_output_names_witness :
  Forall (λ c, (c ∉ placeholders) ∧ c ≠ "v1" ∧ c ≠ "v2")
         (column_names (preprocessed (spam_frame_extra 2))) ∧
  (length (columns (preprocessed (spam_frame_extra 2))) ≤ 6)%nat.
Proof.
  apply (preprocess_data_output_names (spam_frame_extra 2)
           (preprocessed (spam_frame_extra 2)) fresh_world
           (emit DEBUG "Data preprocessing completed" [] fresh_world)).
  reflexivity.
Defined.

Lemma preprocess_data_twice_raises_witness :
  preprocess_data (preprocessed (spam_frame 3)) fresh_world =
    (Raise (KeyError placeholders),
     emit ERROR "Error during preprocessing: %s"
          [ArgExn (KeyError placeholders)] fresh_world).
Proof.
  apply (preprocess_data_twice_raises (spam_frame 3) (preprocessed (spam_frame 3))
           fresh_world (emit DEBUG "Data preprocessing completed" [] fresh_world)).
  reflexivity.
Defined.

(** ** The persister, once more *)

Section PersisterAgain.
Context `{!NumpyRandom}.
Variable env : Env.

(** The four ways [save_data] can go. *)
Lemma save_data_cases train_df test_df w :
  (∃ e, makedirs_error env "data/raw" = Some e ∧
        save_data env train_df test_df w =
          (Raise e,
           handled "Error saving data: %s" e (partly_made env "data/raw" w))) ∨
  (∃ o e, makedirs_error env "data/raw" = None ∧
          to_csv_outcome env "data/raw/train.csv" = o ∧
          write_error o = Some e ∧
          save_data env train_df test_df w =
            (Raise e,
             handled "Error saving data: %s" e
               (after_failed_write "data/raw/train.csv" o (mkdir "data/raw" w)))) ∨
  (∃ o e, makedirs_error env "data/raw" = None ∧
          to_csv_outcome env "data/raw/train.csv" = Written ∧
          to_csv_outcome env "data/raw/test.csv" = o ∧
          write_error o = Some e ∧
          save_data env train_df test_df w =
            (Raise e,
             handled "Error saving data: %s" e
               (after_failed_write "data/raw/test.csv" o
                  (store "data/raw/train.csv" (to_csv_text train_df)
                     (mkdir "data/raw" w))))) ∨
  (makedirs_error env "data/raw" = None ∧
   to_csv_outcome env "data/raw/train.csv" = Written ∧
   to_csv_outcome env "data/raw/test.csv" = Written ∧
   save_data env train_df test_df w =
     (Return (),
      emit DEBUG "Train and test data saved to %s" [ArgStr "data/raw"]
        (store "data/raw/test.csv" (to_csv_text test_df)
           (store "data/raw/train.csv" (to_csv_text train_df)
              (mkdir "data/raw" w))))).
Proof.
  destruct (makedirs_error env "data/raw") as [e|] eqn:Hmk.
  { left. exists e. split; [done|]. by apply save_data_makedirs_Raise. }
  right.
  destruct (write_error (to_csv_outcome env "data/raw/train.csv")) as [e|] eqn:Htrain.
  { left. eexists _, e. split; [done|]. split; [done|]. split; [done|].
    by apply save_data_train_Raise. }
  right.
  assert (Hw : to_csv_outcome env "data/raw/train.csv" = Written)
    by (by destruct (to_csv_outcome env "data/raw/train.csv")).
  destruct (write_error (to_csv_outcome env "data/raw/test.csv")) as [e|] eqn:Htest.
  { left. eexists _, e. split; [done|]. split; [done|]. split; [done|].
    split; [done|]. by apply save_data_test_Raise. }
  right.
  assert (Hw' : to_csv_outcome env "data/raw/test.csv" = Written)
    by (by destruct (to_csv_outcome env "data/raw/test.csv")).
  split; [done|]. split; [done|]. split; [done|]. by apply save_data_Return.
Qed.

(** The part of the world [save_data] does not touch. *)
Lemma save_data_frame train_df test_df w :
  (∀ path, path ≠ "data/raw/train.csv" → path ≠ "data/raw/test.csv" →
           files (save_data env train_df test_df w).2 !! path = files w !! path) ∧
  dirs w ⊆ dirs (save_data env train_df test_df w).2 ∧
  dirs (save_data env train_df test_df w).2 ⊆ {["data"; "data/raw"]} ∪ dirs w ∧
  np_random (save_data env train_df test_df w).2 = np_random w ∧
  log w `prefix_of` log (save_data env train_df test_df w).2.
Proof.
  pose proof (dirs_partly_made_data_raw env w) as [Hlo Hhi].
  pose proof (dirs_mkdir_data_raw w) as Hmk.
  destruct (save_data_cases train_df test_df w)
    as [(e & _ & ->)|[(o & e & _ & _ & _ & ->)|[(o & e & _ & _ & _ & _ & ->)
       |(_ & _ & _ & ->)]]]; cbn [snd];
    rewrite ?files_handled, ?dirs_handled, ?np_random_handled,
      ?dirs_after_failed_write, ?np_random_after_failed_write.
  - split; [done|]. split; [exact Hlo|]. split; [|split; [done|]].
    + etrans; [exact Hhi|]. apply union_mono_r, union_subseteq_l.
    + rewrite log_handled. cbn [partly_made log]. by apply prefix_app_r.
  - clear Hlo Hhi. split; [|split; [|split; [|split; [done|]]]].
    + intros path Htr Hte. by rewrite files_after_failed_write_ne.
    + rewrite Hmk. apply union_subseteq_r.
    + by rewrite Hmk, (comm_L (∪) {["data/raw"]}).
    + rewrite log_handled, log_after_failed_write. by apply prefix_app_r.
  - clear Hlo Hhi. split; [|split; [|split; [|split; [done|]]]].
    + intros path Htr Hte. rewrite files_after_failed_write_ne by done.
      simpl. by rewrite lookup_insert_ne.
    + change (dirs (store ?p ?c ?v)) with (dirs v). rewrite Hmk.
      apply union_subseteq_r.
    + change (dirs (store ?p ?c ?v)) with (dirs v).
      by rewrite Hmk, (comm_L (∪) {["data/raw"]}).
    + rewrite log_handled, log_after_failed_write. by apply prefix_app_r.
  - clear Hlo Hhi. split; [|split; [|split; [|split; [done|]]]].
    + intros path Htr Hte. simpl. by rewrite !lookup_insert_ne.
    + change (dirs (emit ?l ?m ?a (store ?p ?c (store ?p' ?c' ?v)))) with (dirs v).
      rewrite Hmk. apply union_subseteq_r.
    + change (dirs (emit ?l ?m ?a (store ?p ?c (store ?p' ?c' ?v)))) with (dirs v).
      by rewrite Hmk, (comm_L (∪) {["data/raw"]}).
    + simpl. by apply prefix_app_r.
Qed.

(** X4.  When the directory can be made and both writes go through,
    [save_data] returns; [train.csv] and [test.csv] then hold the column
    names as header and the cells of the rows, in row order and without
    the row labels, whatever the two paths held before; [data/raw] is a
    directory; and the last log record is the debug record of the save. *)
Theorem save_data_stores_both (train_df test_df : DataFrame) (w : World) :
  makedirs_error env "data/raw" = None →
  to_csv_outcome env "data/raw/train.csv" = Written →
  to_csv_outcome env "data/raw/test.csv" = Written →
  (save_data env train_df test_df w).1 = Return () ∧
  files (save_data env train_df test_df w).2 !! "data/raw/train.csv" =
    Some {| header := column_names train_df;
            records := map (λ i, (row_at train_df i).2) (seq 0 (len train_df)) |} ∧
  files (save_data env train_df test_df w).2 !! "data/raw/test.csv" =
    Some {| header := column_names test_df;
            records := map (λ i, (row_at test_df i).2) (seq 0 (len test_df)) |} ∧
  "data/raw" ∈ dirs (save_data env train_df test_df w).2 ∧
  last (log (save_data env train_df test_df w).2) =
    Some (mkLogRecord DEBUG "Train and test data saved to %s" [ArgStr "data/raw"]).
Proof.
  intros Hmk Htrain Htest.
  rewrite (save_data_Return env _ _ w Hmk Htrain Htest). simpl.
  split; [done|].
  split. { rewrite lookup_insert_ne by done. rewrite lookup_insert_eq.
           unfold to_csv_text, rows. by rewrite <- list_fmap_compose. }
  split. { rewrite lookup_insert_eq.
           unfold to_csv_text, rows. by rewrite <- list_fmap_compose. }
  split; [set_solver|]. by rewrite last_snoc.
Qed.

(** X5.  However [save_data] ends, no file other than [train.csv] and
    [test.csv] changes, no directory other than [data] and [data/raw]
    appears and none disappears, numpy's global generator is untouched
    and the log only gains records. *)
Theorem save_data_touches_only_outputs (train_df test_df : DataFrame) (w : World) :
  (∀ path, path ≠ "data/raw/train.csv" → path ≠ "data/raw/test.csv" →
           files (save_data env train_df test_df w).2 !! path = files w !! path) ∧
  dirs w ⊆ dirs (save_data env train_df test_df w).2 ∧
  dirs (save_data env train_df test_df w).2 ⊆ {["data"; "data/raw"]} ∪ dirs w ∧
  np_random (save_data env train_df test_df w).2 = np_random w ∧
  log w `prefix_of` log (save_data env train_df test_df w).2.
Proof. apply save_data_frame. Qed.

End PersisterAgain.

Lemma save_data_stores_both_witness :
  (save_data (env_serving (spam_frame 3))
     (iloc [2; 0] (preprocessed (spam_frame 3)))
     (iloc [1] (preprocessed (spam_frame 3))) fresh_world).1 = Return () ∧
  files (save_data (env_serving (spam_frame 3))
           (iloc [2; 0] (preprocessed (spam_frame 3)))
           (iloc [1] (preprocessed (spam_frame 3))) fresh_world).2
    !! "data/raw/test.csv" =
    Some {| header := ["target"; "text"]; records := [[Str "spam"; Num 1]] |}.
Proof.
  destruct (save_data_stores_both (env_serving (spam_frame 3))
              (iloc [2; 0] (preprocessed (spam_frame 3)))
              (iloc [1] (preprocessed (spam_frame 3))) fresh_world)
    as (Hret & _ & Htest & _); [reflexivity|reflexivity|reflexivity|].
  split; [exact Hret|exact Htest].
Defined.

(** ** The splitter and the run, once more *)

Section RunAgain.
Context `{!NumpyRandom}.
Variable env : Env.

(** X6.  On a frame of fewer than [2^53] rows the split with
    [test_size=0.21] returns exactly when the frame has two rows or more,
    and then neither part is empty; on an empty or one-row frame it raises
    the [ValueError] of an empty train set and leaves the world alone. *)
Theorem train_test_split_returns_iff (df : DataFrame) (random_state : option Z)
    (w : World) :
  (Z.of_nat (len df) < 2 ^ 53)%Z →
  ((∃ train test w',
      train_test_split df test_size_0_21 random_state w = (Return (train, test), w'))
   ↔ (2 ≤ len df)%nat) ∧
  (∀ train test w',
     train_test_split df test_size_0_21 random_state w = (Return (train, test), w') →
     (1 ≤ len train)%nat ∧ (1 ≤ len test)%nat) ∧
  ((len df < 2)%nat →
   train_test_split df test_size_0_21 random_state w =
     (Raise (ValueError "the resulting train set will be empty"), w)).
Proof.
  intros Hfit. destruct (decide (len df < 2)%nat) as [Hsmall|Hbig].
  - pose proof (train_test_split_Raise df _ random_state w _
                  (validate_shuffle_split_small _ Hsmall)) as Hrun.
    rewrite Hrun. split; [|split; [|done]].
    + split; [by intros (? & ? & ? & ?)|lia].
    + by intros ???.
  - destruct (validate_shuffle_split_0_21 (len df) ltac:(lia))
      as (n_test & _ & Hv & Hrange & _).
    rewrite (train_test_split_Return _ _ random_state w _ _ Hv).
    split; [|split; [|lia]].
    + split; [lia|]. intros _. by eexists _, _, _.
    + intros train test w' [= <- <- _].
      pose proof (shuffled_perm random_state (len df) w) as Hperm.
      apply Permutation_length in Hperm. rewrite length_seq in Hperm.
      rewrite !len_iloc, !length_take, length_drop, Hperm. lia.
Qed.

Lemma main_save_step w df n_train n_test :
  csv_resource env source_url = inr df →
  placeholders ⊆ column_names df →
  validate_shuffle_split (len (preprocessed df)) test_size_0_21 =
    Return (n_train, n_test) →
  main env w =
    main_after_save
      (save_data env (main_parts df n_train n_test).1 (main_parts df n_train n_test).2
         (emit DEBUG "Data preprocessing completed" []
            (emit DEBUG "Data loaded from %s" [ArgStr source_url] w))).
Proof.
  intros Hcsv Hsub Hv. unfold main, try_except_log. cbv zeta.
  rewrite (bind_Return _ _ _ _ _ (load_data_Return env _ _ w Hcsv)).
  rewrite (bind_Return _ _ _ _ _ (preprocess_data_Return df _ Hsub)).
  rewrite (bind_Return _ _ _ _ _
             (train_test_split_Return _ _ (Some 42%Z) _ _ _ Hv)).
  simpl. unfold mbind at 1, M_bind at 1. unfold main_parts. simpl.
  destruct (save_data env _ _ _) as [[[]|e] w3]; simpl; [done|].
  unfold handled. by destruct (isinstance_Exception e).
Qed.

(** The four ways [main] can go. *)
Lemma main_cases w :
  (∃ e, csv_resource env source_url = inl e ∧
        main env w =
          (Raise e,
           handled "Data ingestion failed: %s" e
             (handled "Error loading data: %s" e w))) ∨
  (∃ df e, csv_resource env source_url = inr df ∧
           drop_columns placeholders df = Raise e ∧
           main env w =
             (Raise e,
              handled "Data ingestion failed: %s" e
                (handled "Error during preprocessing: %s" e
                   (emit DEBUG "Data loaded from %s" [ArgStr source_url] w)))) ∨
  (∃ df e, csv_resource env source_url = inr df ∧
           placeholders ⊆ column_names df ∧
           validate_shuffle_split (len (preprocessed df)) test_size_0_21 = Raise e ∧
           main env w =
             (Raise e,
              handled "Data ingestion failed: %s" e
                (emit DEBUG "Data preprocessing completed" []
                   (emit DEBUG "Data loaded from %s" [ArgStr source_url] w)))) ∨
  (∃ df n_train n_test,
     csv_resource env source_url = inr df ∧
     placeholders ⊆ column_names df ∧
     validate_shuffle_split (len (preprocessed df)) test_size_0_21 =
       Return (n_train, n_test) ∧
     main env w =
       main_after_save
         (save_data env (main_parts df n_train n_test).1
            (main_parts df n_train n_test).2
            (emit DEBUG "Data preprocessing completed" []
               (emit DEBUG "Data loaded from %s" [ArgStr source_url] w)))).
Proof.
  destruct (csv_resource env source_url) as [e|df] eqn:Hcsv.
  { left. exists e. split; [done|]. by apply main_load_Raise. }
  right. destruct (decide (placeholders ⊆ column_names df)) as [Hsub|Hsub].
  2:{ left. destruct (drop_columns_Raise _ _ Hsub) as [_ Hdrop].
      eexists df, _. split; [done|]. split; [exact Hdrop|].
      exact (main_preprocess_Raise env w df _ Hcsv Hdrop). }
  right.
  destruct (validate_shuffle_split (len (preprocessed df)) test_size_0_21)
    as [[n_train n_test]|e] eqn:Hv.
  - right. exists df, n_train, n_test. repeat (split; [done|]).
    exact (main_save_step w df _ _ Hcsv Hsub Hv).
  - left. exists df, e. repeat (split; [done|]).
    exact (main_split_Raise env w df e Hcsv Hsub Hv).
Qed.

(** [main] returns exactly when every step goes through. *)
Lemma main_Return_iff w :
  (main env w).1 = Return () ↔
  ∃ df n_train n_test,
    csv_resource env source_url = inr df ∧
    placeholders ⊆ column_names df ∧
    validate_shuffle_split (len (preprocessed df)) test_size_0_21 =
      Return (n_train, n_test) ∧
    makedirs_error env "data/raw" = None ∧
    to_csv_outcome env "data/raw/train.csv" = Written ∧
    to_csv_outcome env "data/raw/test.csv" = Written.
Proof.
  split.
  - destruct (main_cases w)
      as [(e & _ & ->)|[(df & e & _ & _ & ->)|[(df & e & _ & _ & _ & ->)
         |(df & n_train & n_test & Hcsv & Hsub & Hv & ->)]]]; [done|done|done|].
    destruct (save_data_cases env (main_parts df n_train n_test).1
                (main_parts df n_train n_test).2
                (emit DEBUG "Data preprocessing completed" []
                   (emit DEBUG "Data loaded from %s" [ArgStr source_url] w)))
      as [(e & _ & ->)|[(o & e & _ & _ & _ & ->)|[(o & e & _ & _ & _ & _ & ->)
         |(Hmk & Htrain & Htest & _)]]]; [done|done|done|].
    intros _. by exists df, n_train, n_test.
  - intros (df & n_train & n_test & Hcsv & Hsub & Hv & Hmk & Htrain & Htest).
    by rewrite (main_Return env w df _ _ Hcsv Hsub Hv Hmk Htrain Htest).
Qed.

(** X7.  Fed a source with fewer than two rows (the three placeholder
    columns present), [main] raises the [ValueError] of an empty train
    set; it writes nothing, and the log gains the two debug records of the
    load and the preprocessing and one error record, the run's. *)
Theorem main_too_few_rows (w : World) (df : DataFrame) :
  csv_resource env source_url = inr df →
  placeholders ⊆ column_names df →
  (len df < 2)%nat →
  (main env w).1 = Raise (ValueError "the resulting train set will be empty") ∧
  files (main env w).2 = files w ∧
  dirs (main env w).2 = dirs w ∧
  log (main env w).2 =
    log w ++
      [mkLogRecord DEBUG "Data loaded from %s" [ArgStr source_url];
       mkLogRecord DEBUG "Data preprocessing completed" [];
       mkLogRecord ERROR "Data ingestion failed: %s"
         [ArgExn (ValueError "the resulting train set will be empty")]].
Proof.
  intros Hcsv Hsub Hsmall.
  rewrite (main_split_Raise env w df _ Hcsv Hsub
             (validate_shuffle_split_small (len (preprocessed df)) Hsmall)).
  simpl. repeat split. by rewrite <- !app_assoc.
Qed.

End RunAgain.

Lemma train_test_split_returns_iff_witness :
  ∃ train test w',
    train_test_split (preprocessed (spam_frame 3)) test_size_0_21
      (Some 42%Z) fresh_world = (Return (train, test), w') ∧
    (1 ≤ len train)%nat ∧ (1 ≤ len test)%nat.
Proof.
  destruct (train_test_split_returns_iff (preprocessed (spam_frame 3))
              (Some 42%Z) fresh_world) as (Hiff & Hparts & _).
  - vm_compute. reflexivity.
  - destruct (proj2 Hiff) as (train & test & w' & Hrun); [vm_compute; lia|].
    exists train, test, w'. split; [exact Hrun|]. by apply (Hparts _ _ w').
Defined.

(** A source with a header and no row. *)
Lemma main_too_few_rows_witness :
  (main (env_serving (spam_frame 0)) fresh_world).1 =
    Raise (ValueError "the resulting train set will be empty") ∧
  files (main (env_serving (spam_frame 0)) fresh_world).2 = ∅.
Proof.
  destruct (main_too_few_rows (env_serving (spam_frame 0)) fresh_world (spam_frame 0))
    as (Hraise & Hfiles & _).
  - reflexivity.
  - by apply has_placeholders.
  - vm_compute. lia.
  - split; [exact Hraise|exact Hfiles].
Defined.

(** ** What a run leaves behind *)

Lemma records_iloc positions df :
  records (to_csv_text (iloc positions df)) =
    map (λ i, (row_at df i).2) positions.
Proof.
  unfold to_csv_text. simpl. rewrite rows_iloc.
  induction positions as [|i l IH]; [done|]. simpl. by f_equal.
Qed.

Lemma records_to_csv_text df :
  records (to_csv_text df) = map (λ i, (row_at df i).2) (seq 0 (len df)).
Proof.
  unfold to_csv_text, rows. simpl.
  induction (seq 0 (len df)) as [|i l IH]; [done|]. simpl. by f_equal.
Qed.

Section RunLeaves.
Context `{!NumpyRandom}.
Variable env : Env.

(** The positions of the two frames [main] saves are the positions of the
    preprocessed frame, each once. *)
Lemma main_parts_positions df n_test :
  let indices := (permutation (RandomState 42) (len (preprocessed df))).1 in
  take (Z.to_nat (Z.of_nat (len (preprocessed df)) - n_test))
       (drop (Z.to_nat n_test) indices) ++ take (Z.to_nat n_test) indices
  ≡ₚ seq 0 (len (preprocessed df)).
Proof.
  intros indices.
  pose proof (permutation_perm (RandomState 42) (len (preprocessed df))) as Hperm.
  fold indices in Hperm.
  assert (Hlen : length indices = len (preprocessed df))
    by (by rewrite (Permutation_length Hperm), length_seq).
  assert (Hcut : take (Z.to_nat n_test) indices ++
            take (Z.to_nat (Z.of_nat (len (preprocessed df)) - n_test))
                 (drop (Z.to_nat n_test) indices) = indices).
  { rewrite <- Hlen. apply take_drop_sizes. }
  by rewrite Permutation_app_comm, Hcut.
Qed.

(** X8.  After a run that returns, [train.csv] and [test.csv] both carry
    the column names of the preprocessed source as header, and their
    records together are the records of the preprocessed source, each row
    once: none lost, none doubled, none altered. *)
Theorem main_outputs_partition (w : World) (df : DataFrame) :
  csv_resource env source_url = inr df →
  (main env w).1 = Return () →
  ∃ train_csv test_csv,
    files (main env w).2 !! "data/raw/train.csv" = Some train_csv ∧
    files (main env w).2 !! "data/raw/test.csv" = Some test_csv ∧
    header train_csv = column_names (preprocessed df) ∧
    header test_csv = column_names (preprocessed df) ∧
    records train_csv ++ records test_csv ≡ₚ records (to_csv_text (preprocessed df)) ∧
    (length (records train_csv) + length (records test_csv) = len df)%nat.
Proof.
  intros Hcsv Hret.
  apply main_Return_iff in Hret
    as (df' & n_train & n_test & Hcsv' & Hsub & Hv & Hmk & Htrain & Htest).
  assert (df' = df) as -> by congruence.
  rewrite (main_Return env w df _ _ Hcsv Hsub Hv Hmk Htrain Htest).
  cbn [snd]. rewrite !files_emit. cbn [store files].
  apply validate_shuffle_split_Return in Hv as [-> Hne].
  pose proof (main_parts_positions df n_test) as Hpos. cbv zeta in Hpos.
  set (indices := (permutation (RandomState 42) (len (preprocessed df))).1) in *.
  set (ind_train := take _ (drop _ indices)) in *.
  set (ind_test := take (Z.to_nat n_test) indices) in *.
  eexists _, _.
  split. { rewrite lookup_insert_ne by done. by rewrite lookup_insert_eq. }
  split; [by rewrite lookup_insert_eq|].
  split; [apply column_names_iloc|]. split; [apply column_names_iloc|].
  rewrite !records_iloc, records_to_csv_text, <- map_app, !length_map.
  split; [by apply Permutation_map|].
  rewrite <- length_app, (Permutation_length Hpos). by rewrite length_seq.
Qed.

Lemma main_frame w :
  (∀ path, path ≠ "data/raw/train.csv" → path ≠ "data/raw/test.csv" →
           files (main env w).2 !! path = files w !! path) ∧
  dirs w ⊆ dirs (main env w).2 ∧
  dirs (main env w).2 ⊆ {["data"; "data/raw"]} ∪ dirs w ∧
  np_random (main env w).2 = np_random w ∧
  log w `prefix_of` log (main env w).2.
Proof.
  destruct (main_cases env w)
    as [(e & _ & ->)|[(df & e & _ & _ & ->)|[(df & e & _ & _ & _ & ->)
       |(df & n_train & n_test & _ & _ & _ & ->)]]]; cbn [snd].
  - rewrite !files_handled, !dirs_handled, !np_random_handled.
    split; [done|]. split; [done|]. split; [apply union_subseteq_r|].
    split; [done|].
    etrans; [|apply log_prefix_handled]. apply log_prefix_handled.
  - rewrite !files_handled, !dirs_handled, !np_random_handled. simpl.
    split; [done|]. split; [done|]. split; [apply union_subseteq_r|].
    split; [done|].
    etrans; [|apply log_prefix_handled].
    etrans; [|apply log_prefix_handled]. by apply prefix_app_r.
  - rewrite !files_handled, !dirs_handled, !np_random_handled. simpl.
    split; [done|]. split; [done|]. split; [apply union_subseteq_r|].
    split; [done|].
    etrans; [|apply log_prefix_handled]. simpl.
    rewrite <- app_assoc. by apply prefix_app_r.
  - set (w2 := emit DEBUG "Data preprocessing completed" []
                 (emit DEBUG "Data loaded from %s" [ArgStr source_url] w)).
    destruct (save_data_frame env (main_parts df n_train n_test).1
                (main_parts df n_train n_test).2 w2)
      as (Hfiles & Hsub & Hsup & Hrng & Hlog).
    assert (Hw2 : log w `prefix_of` log w2).
    { unfold w2. simpl. rewrite <- app_assoc. by apply prefix_app_r. }
    destruct (save_data env _ _ w2) as [[[]|e] w3]; simpl in *;
      rewrite ?files_handled, ?dirs_handled, ?np_random_handled.
    + split; [done|]. split; [done|]. split; [done|]. split; [done|].
      apply prefix_app_r. by etrans.
    + split; [done|]. split; [done|]. split; [done|]. split; [done|].
      etrans; [|apply log_prefix_handled]. by etrans.
Qed.

(** X9.  However a run ends, it changes no file other than [train.csv]
    and [test.csv], makes no directory other than [data] and [data/raw]
    and removes none, leaves numpy's global generator as it was, and only
    adds to the log. *)
Theorem main_touches_only_outputs (w : World) :
  (∀ path, path ≠ "data/raw/train.csv" → path ≠ "data/raw/test.csv" →
           files (main env w).2 !! path = files w !! path) ∧
  dirs w ⊆ dirs (main env w).2 ∧
  dirs (main env w).2 ⊆ {["data"; "data/raw"]} ∪ dirs w ∧
  np_random (main env w).2 = np_random w ∧
  log w `prefix_of` log (main env w).2.
Proof. apply main_frame. Qed.

End RunLeaves.

Section RunLog.
Context `{!NumpyRandom}.
Variable env : Env.

Lemma last_log_handled msg e w :
  isinstance_Exception e = true →
  last (log (handled msg e w)) = Some (mkLogRecord ERROR msg [ArgExn e]).
Proof. intros He. rewrite log_handled, He. apply last_snoc. Qed.

Lemma log_handled_other msg e w :
  isinstance_Exception e = false → log (handled msg e w) = log w.
Proof. intros He. rewrite log_handled, He. apply app_nil_r. Qed.

(** X10.  The log tells how a run ended.  After a run that returns it has
    gained four debug records: source loaded, preprocessing completed,
    train and test saved, pipeline completed.  After a run that raises an
    [Exception], its last record is the error record [Data ingestion
    failed] carrying that exception.  After a run that raises anything
    else, it has gained debug records only. *)
Theorem main_log_tells_outcome (w : World) :
  match main env w with
  | (Return _, w') =>
      log w' =
        log w ++
          [mkLogRecord DEBUG "Data loaded from %s" [ArgStr source_url];
           mkLogRecord DEBUG "Data preprocessing completed" [];
           mkLogRecord DEBUG "Train and test data saved to %s" [ArgStr "data/raw"];
           mkLogRecord DEBUG "Data ingestion pipeline completed successfully" []]
  | (Raise e, w') =>
      if isinstance_Exception e
      then last (log w') =
             Some (mkLogRecord ERROR "Data ingestion failed: %s" [ArgExn e])
      else ∃ records, log w' = log w ++ records ∧
                      Forall (λ r, levelname r = DEBUG) records
  end.
Proof.
  destruct (main_cases env w)
    as [(e & _ & ->)|[(df & e & _ & _ & ->)|[(df & e & _ & _ & _ & ->)
       |(df & n_train & n_test & _ & _ & _ & ->)]]].
  - destruct (isinstance_Exception e) eqn:He; [by apply last_log_handled|].
    exists []. rewrite !log_handled_other, app_nil_r by done. done.
  - destruct (isinstance_Exception e) eqn:He; [by apply last_log_handled|].
    eexists [_]. rewrite !log_handled_other by done. simpl.
    split; [done|]. by repeat constructor.
  - destruct (isinstance_Exception e) eqn:He; [by apply last_log_handled|].
    eexists [_; _]. rewrite !log_handled_other by done. simpl.
    rewrite <- app_assoc. split; [done|]. by repeat constructor.
  - destruct (save_data_cases env (main_parts df n_train n_test).1
                (main_parts df n_train n_test).2
                (emit DEBUG "Data preprocessing completed" []
                   (emit DEBUG "Data loaded from %s" [ArgStr source_url] w)))
      as [(e & _ & ->)|[(o & e & _ & _ & _ & ->)|[(o & e & _ & _ & _ & _ & ->)
         |(_ & _ & _ & ->)]]]; cbn [main_after_save].
    + destruct (isinstance_Exception e) eqn:He; [by apply last_log_handled|].
      eexists [_; _]. rewrite !log_handled_other by done. simpl.
      rewrite <- app_assoc. split; [done|]. by repeat constructor.
    + destruct (isinstance_Exception e) eqn:He; [by apply last_log_handled|].
      eexists [_; _]. rewrite !log_handled_other, log_after_failed_write by done.
      simpl. rewrite <- app_assoc. split; [done|]. by repeat constructor.
    + destruct (isinstance_Exception e) eqn:He; [by apply last_log_handled|].
      eexists [_; _]. rewrite !log_handled_other, log_after_failed_write by done.
      simpl. rewrite <- app_assoc. split; [done|]. by repeat constructor.
    + simpl. by rewrite <- !app_assoc.
Qed.

(** X11.  A run that returned is followed by a second run, against an
    outside that may have changed ([env'] instead of [env]).  If the source
    answers the second run with the same table and the directory and both
    writes are allowed again, the second run returns too and leaves the
    files and the directories as the first left them: the two files are
    written again with the same text. *)
Theorem main_rerun_leaves_disk (env' : Env) (w : World) :
  (main env w).1 = Return () →
  csv_resource env' source_url = csv_resource env source_url →
  makedirs_error env' "data/raw" = None →
  to_csv_outcome env' "data/raw/train.csv" = Written →
  to_csv_outcome env' "data/raw/test.csv" = Written →
  (main env' (main env w).2).1 = Return () ∧
  files (main env' (main env w).2).2 = files (main env w).2 ∧
  dirs (main env' (main env w).2).2 = dirs (main env w).2.
Proof.
  intros Hret Hsame Hmk' Htrain' Htest'.
  apply main_Return_iff in Hret
    as (df & n_train & n_test & Hcsv & Hsub & Hv & Hmk & Htrain & Htest).
  assert (Hcsv' : csv_resource env' source_url = inr df) by congruence.
  rewrite (main_Return env w df _ _ Hcsv Hsub Hv Hmk Htrain Htest).
  rewrite (main_Return env' _ df _ _ Hcsv' Hsub Hv Hmk' Htrain' Htest').
  cbn [fst snd]. split; [done|]. split.
  - simpl. apply map_eq. intros path.
    destruct (decide (path = "data/raw/test.csv")) as [->|Hte];
      [by rewrite !lookup_insert_eq|].
    rewrite !(lookup_insert_ne _ "data/raw/test.csv") by done.
    destruct (decide (path = "data/raw/train.csv")) as [->|Htr];
      [by rewrite !lookup_insert_eq|].
    rewrite !(lookup_insert_ne _ "data/raw/train.csv") by done.
    by rewrite !lookup_insert_ne.
  - change (dirs (emit ?l ?m ?a (emit ?l' ?m' ?a' (store ?p ?c (store ?p' ?c' ?v)))))
      with (dirs v).
    rewrite !dirs_mkdir_data_raw.
    change (dirs (emit ?l ?m ?a (emit ?l' ?m' ?a' ?v))) with (dirs v).
    change (dirs (emit ?l ?m ?a (emit ?l' ?m' ?a' (store ?p ?c (store ?p' ?c' ?v)))))
      with (dirs v).
    rewrite !dirs_mkdir_data_raw.
    change (dirs (emit ?l ?m ?a (emit ?l' ?m' ?a' ?v))) with (dirs v).
    by rewrite (assoc_L (∪)), (idemp_L (∪)).
Qed.

(** X12.  For a source of fewer than [2^53] rows, [main] returns exactly
    when the source loads, it has the three placeholder columns and at
    least two rows, the data directory can be made and both files are
    written. *)
Theorem main_returns_exactly_when (w : World) :
  (∀ df, csv_resource env source_url = inr df → (Z.of_nat (len df) < 2 ^ 53)%Z) →
  (main env w).1 = Return () ↔
  ∃ df, csv_resource env source_url = inr df ∧
        placeholders ⊆ column_names df ∧
        (2 ≤ len df)%nat ∧
        makedirs_error env "data/raw" = None ∧
        to_csv_outcome env "data/raw/train.csv" = Written ∧
        to_csv_outcome env "data/raw/test.csv" = Written.
Proof.
  intros Hfit. rewrite main_Return_iff. split.
  - intros (df & n_train & n_test & Hcsv & Hsub & Hv & Hmk & Htrain & Htest).
    exists df. repeat (split; [done|]). split; [|done].
    destruct (decide (len df < 2)%nat) as [Hsmall|]; [|lia].
    change (len (preprocessed df)) with (len df) in Hv.
    by rewrite (validate_shuffle_split_small _ Hsmall) in Hv.
  - intros (df & Hcsv & Hsub & Hrows & Hmk & Htrain & Htest).
    destruct (validate_shuffle_split_0_21 (len df))
      as (n_test & _ & Hv & _); [specialize (Hfit df Hcsv); lia|].
    by eexists df, _, n_test.
Qed.

Lemma save_data_Raise_log train_df test_df w e :
  (save_data env train_df test_df w).1 = Raise e →
  log (save_data env train_df test_df w).2 =
    log w ++ if isinstance_Exception e
             then [mkLogRecord ERROR "Error saving data: %s" [ArgExn e]] else [].
Proof.
  intros Hrun. revert Hrun.
  destruct (save_data_cases env train_df test_df w)
    as [(e0 & _ & ->)|[(o & e0 & _ & _ & _ & ->)|[(o & e0 & _ & _ & _ & _ & ->)
       |(_ & _ & _ & ->)]]]; cbn [fst snd]; [| | |done];
    intros [= ->]; rewrite log_handled, ?log_after_failed_write; done.
Qed.

(** X13.  A failure is logged where it is caught.  When a run is ended by
    an [Exception] [e], what the log gains depends on the stage that
    raised it.  A failed load: the loader's error record, then the run's.
    A failed preprocessing: the debug record of the load, the
    preprocessor's error record, then the run's.  A failed split, which
    has no handler of its own: the two debug records, then the run's error
    record alone.  A failed save: the two debug records, the persister's
    error record, then the run's.  Every error record carries [e]. *)
Theorem main_error_records (w : World) (e : exn) :
  isinstance_Exception e = true →
  (csv_resource env source_url = inl e →
     (main env w).1 = Raise e ∧
     log (main env w).2 =
       log w ++
         [mkLogRecord ERROR "Error loading data: %s" [ArgExn e];
          mkLogRecord ERROR "Data ingestion failed: %s" [ArgExn e]]) ∧
  (∀ df, csv_resource env source_url = inr df →
     drop_columns placeholders df = Raise e →
     (main env w).1 = Raise e ∧
     log (main env w).2 =
       log w ++
         [mkLogRecord DEBUG "Data loaded from %s" [ArgStr source_url];
          mkLogRecord ERROR "Error during preprocessing: %s" [ArgExn e];
          mkLogRecord ERROR "Data ingestion failed: %s" [ArgExn e]]) ∧
  (∀ df, csv_resource env source_url = inr df →
     placeholders ⊆ column_names df →
     validate_shuffle_split (len df) test_size_0_21 = Raise e →
     (main env w).1 = Raise e ∧
     log (main env w).2 =
       log w ++
         [mkLogRecord DEBUG "Data loaded from %s" [ArgStr source_url];
          mkLogRecord DEBUG "Data preprocessing completed" [];
          mkLogRecord ERROR "Data ingestion failed: %s" [ArgExn e]]) ∧
  (∀ df n_train n_test,
     csv_resource env source_url = inr df →
     placeholders ⊆ column_names df →
     validate_shuffle_split (len df) test_size_0_21 = Return (n_train, n_test) →
     (save_data env (main_parts df n_train n_test).1 (main_parts df n_train n_test).2
        (emit DEBUG "Data preprocessing completed" []
           (emit DEBUG "Data loaded from %s" [ArgStr source_url] w))).1 = Raise e →
     (main env w).1 = Raise e ∧
     log (main env w).2 =
       log w ++
         [mkLogRecord DEBUG "Data loaded from %s" [ArgStr source_url];
          mkLogRecord DEBUG "Data preprocessing completed" [];
          mkLogRecord ERROR "Error saving data: %s" [ArgExn e];
          mkLogRecord ERROR "Data ingestion failed: %s" [ArgExn e]]).
Proof.
  intros He.
  assert (Hh : ∀ msg v, handled msg e v = emit ERROR msg [ArgExn e] v).
  { intros msg v. unfold handled. by rewrite He. }
  split; [|split; [|split]].
  - intros Hcsv. rewrite (main_load_Raise env w e Hcsv), !Hh. simpl.
    split; [done|]. by rewrite <- app_assoc.
  - intros df Hcsv Hdrop.
    rewrite (main_preprocess_Raise env w df e Hcsv Hdrop), !Hh. simpl.
    split; [done|]. by rewrite <- !app_assoc.
  - intros df Hcsv Hsub Hv.
    rewrite (main_split_Raise env w df e Hcsv Hsub Hv), !Hh. simpl.
    split; [done|]. by rewrite <- !app_assoc.
  - intros df n_train n_test Hcsv Hsub Hv Hsave.
    rewrite (main_save_step env w df _ _ Hcsv Hsub Hv).
    pose proof (save_data_Raise_log _ _ _ _ Hsave) as Hlog. rewrite He in Hlog.
    destruct (save_data env _ _ _) as [r w3]; cbn [fst snd] in *; subst r.
    cbn [main_after_save fst snd]. rewrite Hh. simpl.
    split; [done|]. rewrite Hlog. simpl. by rewrite <- !app_assoc.
Qed.

End RunLog.

Lemma main_outputs_partition_witness :
  ∃ train_csv test_csv,
    files (main (env_serving (spam_frame 5)) fresh_world).2
      !! "data/raw/train.csv" = Some train_csv ∧
    files (main (env_serving (spam_frame 5)) fresh_world).2
      !! "data/raw/test.csv" = Some test_csv ∧
    (length (records train_csv) + length (records test_csv) = 5)%nat.
Proof.
  destruct (main_outputs_partition (env_serving (spam_frame 5)) fresh_world
              (spam_frame 5))
    as (train_csv & test_csv & Htrain & Htest & _ & _ & _ & Hsum);
    [reflexivity|reflexivity|].
  exists train_csv, test_csv. split; [exact Htrain|]. split; [exact Htest|exact Hsum].
Defined.

(** The second run meets an outside where the configuration exists now;
    the source and the disk answer as before. *)
Lemma main_rerun_leaves_disk_witness :
  files (main (with_yaml_document (λ _, inr ∅) (env_serving (spam_frame 5)))
           (main (env_serving (spam_frame 5)) fresh_world).2).2 =
    files (main (env_serving (spam_frame 5)) fresh_world).2.
Proof.
  destruct (main_rerun_leaves_disk (env_serving (spam_frame 5))
              (with_yaml_document (λ _, inr ∅) (env_serving (spam_frame 5)))
              fresh_world)
    as (_ & Hfiles & _);
    [reflexivity|reflexivity|reflexivity|reflexivity|reflexivity|exact Hfiles].
Defined.

Lemma main_returns_exactly_when_witness :
  (main (env_serving (spam_frame 5)) fresh_world).1 = Return ().
Proof.
  apply (main_returns_exactly_when (env_serving (spam_frame 5)) fresh_world).
  - intros df [= <-]. vm_compute. reflexivity.
  - exists (spam_frame 5).
    split; [reflexivity|]. split; [by apply has_placeholders|].
    split; [vm_compute; lia|]. by repeat split.
Defined.

(** An unparsable source: two error records, the loader's and the run's. *)
Lemma main_error_records_witness :
  log (main (env_failing_source (ParserError "Error tokenizing data"))
         fresh_world).2 =
    [mkLogRecord ERROR "Error loading data: %s"
       [ArgExn (ParserError "Error tokenizing data")];
     mkLogRecord ERROR "Data ingestion failed: %s"
       [ArgExn (ParserError "Error tokenizing data")]].
Proof.
  destruct (main_error_records
              (env_failing_source (ParserError "Error tokenizing data"))
              fresh_world (ParserError "Error tokenizing data"))
    as ([_ Hlog] & _); [reflexivity|reflexivity|exact Hlog].
Defined.
